(** * Batch generation from two TileDB arrays

    A shallow embedding of [tiledb/ml/readers/_tensor_gen.py]: the dense and
    sparse tensor generators and the [tensor_generator] batch sequencer.

    Python objects are records, exceptions are a sum type, the array store is
    reached through a state monad whose state is the log of reads performed,
    and a Python generator is an explicit state machine advanced by [gen_next].
    Numbers (row indices, coordinates, attribute values) are integers. *)

From Stdlib Require Import String ZArith List Bool Lia.
Import ListNotations.
Open Scope string_scope.
Open Scope list_scope.
Open Scope Z_scope.

(** ** Python slices *)

(** [slice(start, stop)] with integer bounds and no step. *)
Record slice : Type := Slice { start : Z; stop : Z }.

(** The number of rows a window [[start, stop)] names. *)
Definition slice_len (s : slice) : Z := stop s - start s.

(** One bound of [slice.indices(n)]: negative bounds count from the end and
    everything is clipped to [[0, n]]. *)
Definition clamp_index (i n : Z) : Z :=
  if i <? 0 then Z.max (i + n) 0 else Z.min i n.

Definition slice_indices (s : slice) (n : Z) : Z * Z :=
  (clamp_index (start s) n, clamp_index (stop s) n).

(** [seq[s]] on the leading axis of a list or of a numpy array. *)
Definition getitem_slice {A : Type} (l : list A) (s : slice) : list A :=
  let '(i0, i1) := slice_indices s (Z.of_nat (length l)) in
  firstn (Z.to_nat (i1 - i0)) (skipn (Z.to_nat i0) l).

(** ** Exceptions and the store monad *)

Inductive Exception : Type :=
| NotImplementedError (msg : string)
| AttributeError (attr : string)
| KeyError (key : string)
| IndexError (msg : string)
| ValueError (msg : string)
| TileDBError (msg : string).

Inductive Result (A : Type) : Type :=
| Ok (a : A)
| Raise (e : Exception).
Arguments Ok {A} a.
Arguments Raise {A} e.

(** One read of the store: which array, which attributes, which rows. *)
Record ReadEvent : Type :=
  { ev_uri : string; ev_attrs : list string; ev_slice : slice }.

(** The observable world is the sequence of reads performed so far. *)
Definition World : Type := list ReadEvent.

Definition M (A : Type) : Type := World -> Result A * World.

Definition ret {A : Type} (a : A) : M A := fun w => (Ok a, w).

Definition raise {A : Type} (e : Exception) : M A := fun w => (Raise e, w).

Definition lift {A : Type} (r : Result A) : M A := fun w => (r, w).

Definition bind {A B : Type} (c : M A) (k : A -> M B) : M B :=
  fun w =>
    match c w with
    | (Ok a, w') => k a w'
    | (Raise e, w') => (Raise e, w')
    end.

Notation "x <- c ;; k" := (bind c (fun x => k))
  (at level 61, c at next level, right associativity).
Notation "' pat <- c ;; k" := (bind c (fun x => match x with pat => k end))
  (at level 61, pat pattern, c at next level, right associativity).

(** A comprehension whose element expression can raise stops at the first
    exception. *)
Fixpoint map_result {A B : Type} (f : A -> Result B) (l : list A)
  : Result (list B) :=
  match l with
  | [] => Ok []
  | a :: l' =>
      match f a with
      | Raise e => Raise e
      | Ok b =>
          match map_result f l' with
          | Raise e => Raise e
          | Ok bs => Ok (b :: bs)
          end
      end
  end.

(** ** Ordered dictionaries *)

Definition OrderedDict (A : Type) : Type := list (string * A).

Definition od_values {A : Type} (d : OrderedDict A) : list A := map snd d.

(** [d.pop(key)]: the value and the dictionary without the key. *)
Fixpoint od_pop {A : Type} (key : string) (d : OrderedDict A)
  : option (A * OrderedDict A) :=
  match d with
  | [] => None
  | (k, v) :: d' =>
      if String.eqb k key then Some (v, d')
      else match od_pop key d' with
           | Some (x, rest) => Some (x, (k, v) :: rest)
           | None => None
           end
  end.

(** ** The array store, at its interface *)

Record Dim : Type := { dim_name : string; dim_size : Z }.

Record Attr : Type := { attr_name : string; attr_dtype : string }.

Record ArraySchema : Type :=
  { sparse : bool; dims : list Dim; attrs : list Attr }.

Definition ndim (s : ArraySchema) : Z := Z.of_nat (length (dims s)).

Definition shape (s : ArraySchema) : list Z := map dim_size (dims s).

(** [schema.domain.dim(i)] *)
Definition domain_dim (s : ArraySchema) (i : nat) : Result Dim :=
  match nth_error (dims s) i with
  | Some d => Ok d
  | None => Raise (TileDBError "dimension index out of bounds")
  end.

(** [schema.attr(name)] *)
Definition schema_attr (s : ArraySchema) (name : string) : Result Attr :=
  match find (fun a => String.eqb (attr_name a) name) (attrs s) with
  | Some a => Ok a
  | None => Raise (TileDBError "attribute does not exist")
  end.

(** A dense numpy array, by rows: the leading dimension is the list length. *)
Definition ndarray : Type := list (list Z).

(** A handle to one array.  A read of a dense array gives one array per
    attribute; a read of a sparse array gives one vector per dimension
    (the coordinates) and one per attribute (the values).  The store is a
    function of the request. *)
Record Array : Type :=
  { uri : string;
    schema : ArraySchema;
    dense_cells : list string -> slice -> Result (OrderedDict ndarray);
    sparse_cells : list string -> slice -> Result (OrderedDict (list Z)) }.

(** [array.shape] *)
Definition array_shape (a : Array) : list Z := shape (schema a).

(** [array.query(attrs=attrs)]: nothing is read until the query is indexed. *)
Record Query : Type := { q_array : Array; q_attrs : list string }.

Definition array_query (array : Array) (attrs : list string) : Query :=
  {| q_array := array; q_attrs := attrs |}.

Definition read_event (q : Query) (s : slice) : ReadEvent :=
  {| ev_uri := uri (q_array q); ev_attrs := q_attrs q; ev_slice := s |}.

(** [query[array_slice]] on a dense array. *)
Definition query_getitem_dense (q : Query) (array_slice : slice)
  : M (OrderedDict ndarray) :=
  fun w => (dense_cells (q_array q) (q_attrs q) array_slice,
            w ++ [read_event q array_slice]).

(** [query[array_slice]] on a sparse array. *)
Definition query_getitem_sparse (q : Query) (array_slice : slice)
  : M (OrderedDict (list Z)) :=
  fun w => (sparse_cells (q_array q) (q_attrs q) array_slice,
            w ++ [read_event q array_slice]).

(** ** Tensors *)

(** What a generator yields: a numpy array, or a sparse tensor.  The sparse
    generator is an abstract class whose subclasses say, in
    [_tensor_from_coo], how the values, the coordinates, the dense shape and
    the dtype become a tensor of their framework; the model is a subclass
    that keeps the four arguments as they are. *)
Inductive Tensor : Type :=
| DenseTensor (a : ndarray)
| SparseTensor (data : list Z) (coords : list (list Z))
               (dense_shape : list Z) (dtype : string).

(** ** TileDBNumpyGenerator *)

Module TileDBNumpyGenerator.

(** [_buf_arrays] does not exist until [read_buffer] has run. *)
Record t : Type :=
  { query : Query; buf_arrays : option (list ndarray) }.

(** [TileDBTensorGenerator.__init__], inherited unchanged. *)
Definition init (array : Array) (attrs : list string) : M t :=
  ret {| query := array_query array attrs; buf_arrays := None |}.

Definition read_buffer (self : t) (array_slice : slice) : M t :=
  buffer <- query_getitem_dense (query self) array_slice ;;
  ret {| query := query self; buf_arrays := Some (od_values buffer) |}.

(** The tensors obtained by draining [iter_tensors(buffer_slice)].  The call
    itself only creates the iterator; its body runs at the first pull, where
    a missing [_buf_arrays] raises. *)
Definition iter_tensors (self : t) (buffer_slice : slice)
  : Result (list Tensor) :=
  match buf_arrays self with
  | None => Raise (AttributeError "_buf_arrays")
  | Some bufs =>
      Ok (map (fun buf_array =>
                 DenseTensor (getitem_slice buf_array buffer_slice)) bufs)
  end.

End TileDBNumpyGenerator.

(** ** scipy.sparse, as far as the sparse generator uses it *)

(** A row-compressed matrix: for every row the stored (column, value)
    entries, columns increasing and distinct. *)
Record csr_matrix : Type :=
  { csr_shape : Z * Z; csr_rows : list (list (Z * Z)) }.

(** Adding one entry to a row; values at the same column are summed.  The
    sum is that of the integers: scipy adds in the dtype of the values, with
    its rounding or wrap-around, which integer values do not show.  Where a
    statement below relates the values of a tensor to those the store
    answered with, the coordinates are distinct and nothing is summed. *)
Fixpoint insert_sum (c v : Z) (r : list (Z * Z)) : list (Z * Z) :=
  match r with
  | [] => [(c, v)]
  | (c', v') :: r' =>
      if c <? c' then (c, v) :: r
      else if c =? c' then (c', v' + v) :: r'
      else (c', v') :: insert_sum c v r'
  end.

(** The row stores something at column [c]. *)
Definition has_col (c : Z) (r : list (Z * Z)) : Prop := exists v, In (c, v) r.

(** Coordinate entries [(row, col, value)]. *)
Definition entry : Type := (Z * Z * Z)%type.

Definition coo_entries (data row col : list Z) : list entry :=
  combine (combine row col) data.

Definition csr_row_of (es : list entry) (i : Z) : list (Z * Z) :=
  fold_left (fun acc (e : entry) =>
               let '(r, c, v) := e in
               if r =? i then insert_sum c v acc else acc) es [].

Definition entry_in_bounds (m n : Z) (e : entry) : bool :=
  let '(r, c, _) := e in
  (0 <=? r) && (r <? m) && (0 <=? c) && (c <? n).

(** [sp.csr_matrix((data, (row, col)), shape=shape)] *)
Definition sp_csr_matrix (data row col : list Z) (shape : list Z)
  : Result csr_matrix :=
  match shape with
  | [m; n] =>
      if (m <? 0) || (n <? 0) then
        Raise (ValueError "'shape' elements cannot be negative")
      else if negb ((length row =? length data)%nat
                    && (length col =? length data)%nat) then
        Raise (ValueError "row, column, and data array must all be the same length")
      else if negb (forallb (entry_in_bounds m n) (coo_entries data row col)) then
        Raise (ValueError "index exceeds matrix dimensions")
      else
        Ok {| csr_shape := (m, n);
              csr_rows := map (fun i => csr_row_of (coo_entries data row col)
                                                   (Z.of_nat i))
                              (seq 0 (Z.to_nat m)) |}
  | _ => Raise (ValueError "invalid shape")
  end.

(** [m[s]]: the rows named by [s.indices(m.shape[0])], renumbered from 0. *)
Definition csr_getitem (m : csr_matrix) (s : slice) : csr_matrix :=
  let '(i0, i1) := slice_indices s (fst (csr_shape m)) in
  let i0 := Z.min i0 i1 in
  {| csr_shape := (i1 - i0, snd (csr_shape m));
     csr_rows := firstn (Z.to_nat (i1 - i0)) (skipn (Z.to_nat i0) (csr_rows m)) |}.

Record coo_matrix : Type :=
  { coo_data : list Z; coo_row : list Z; coo_col : list Z; coo_shape : Z * Z }.

(** The entries of the rows, numbered from [i], in row-major order. *)
Fixpoint rows_entries (i : Z) (rows : list (list (Z * Z))) : list entry :=
  match rows with
  | [] => []
  | r :: rows' =>
      map (fun cv : Z * Z => (i, fst cv, snd cv)) r ++ rows_entries (i + 1) rows'
  end.

(** [m.tocoo()] *)
Definition tocoo (m : csr_matrix) : coo_matrix :=
  let es := rows_entries 0 (csr_rows m) in
  {| coo_data := map (fun e : entry => snd e) es;
     coo_row := map (fun e : entry => fst (fst e)) es;
     coo_col := map (fun e : entry => snd (fst e)) es;
     coo_shape := csr_shape m |}.

(** [np.stack((a, b), axis=-1)] of two vectors of one length. *)
Definition np_stack_last (a b : list Z) : list (list Z) :=
  map (fun p : Z * Z => [fst p; snd p]) (combine a b).

(** ** SparseTileDBTensorGenerator *)

Module SparseTileDBTensorGenerator.

(** [_buf_csrs] does not exist until [read_buffer] has run. *)
Record t : Type :=
  { row_dim : string;
    col_dim : string;
    row_shape : list Z;
    attr_dtypes : list string;
    query : Query;
    buf_csrs : option (list csr_matrix) }.

Definition init (array : Array) (attrs : list string) : M t :=
  let schema := schema array in
  if negb (ndim schema =? 2) then
    raise (NotImplementedError "Only 2D sparse tensors are currently supported")
  else
    d0 <- lift (domain_dim schema 0) ;;
    d1 <- lift (domain_dim schema 1) ;;
    dtypes <- lift (map_result (fun attr =>
                       match schema_attr schema attr with
                       | Ok a => Ok (attr_dtype a)
                       | Raise e => Raise e
                       end) attrs) ;;
    ret {| row_dim := dim_name d0;
           col_dim := dim_name d1;
           row_shape := tl (shape schema);
           attr_dtypes := dtypes;
           query := array_query array attrs;
           buf_csrs := None |}.

(** [buffer.pop(key)] *)
Definition pop (buffer : OrderedDict (list Z)) (key : string)
  : M (list Z * OrderedDict (list Z)) :=
  match od_pop key buffer with
  | Some r => ret r
  | None => raise (KeyError key)
  end.

Definition read_buffer (self : t) (array_slice : slice) : M t :=
  buffer <- query_getitem_sparse (query self) array_slice ;;
  '(row, buffer) <- pop buffer (row_dim self) ;;
  '(col, buffer) <- pop buffer (col_dim self) ;;
  let start_offset := start array_slice in
  let stop_offset := stop array_slice in
  let shape := (stop_offset - start_offset) :: row_shape self in
  csrs <- lift (map_result
                  (fun data =>
                     sp_csr_matrix data (map (fun r => r - start_offset) row)
                                   col shape)
                  (od_values buffer)) ;;
  ret {| row_dim := row_dim self;
         col_dim := col_dim self;
         row_shape := row_shape self;
         attr_dtypes := attr_dtypes self;
         query := query self;
         buf_csrs := Some csrs |}.

(** One pass of the loop body of [iter_tensors]. *)
Definition tensor_of (self : t) (buffer_slice : slice)
           (p : csr_matrix * string) : Tensor :=
  let '(buf_csr, dtype) := p in
  let batch_csr := csr_getitem buf_csr buffer_slice in
  let batch_coo := tocoo batch_csr in
  let data := coo_data batch_coo in
  let coords := np_stack_last (coo_row batch_coo) (coo_col batch_coo) in
  let dense_shape := fst (csr_shape batch_csr) :: row_shape self in
  SparseTensor data coords dense_shape dtype.

(** The tensors obtained by draining [iter_tensors(buffer_slice)]; as for
    the dense generator the body runs at the first pull, where a missing
    [_buf_csrs] raises. *)
Definition iter_tensors (self : t) (buffer_slice : slice)
  : Result (list Tensor) :=
  match buf_csrs self with
  | None => Raise (AttributeError "_buf_csrs")
  | Some csrs =>
      Ok (map (tensor_of self buffer_slice) (combine csrs (attr_dtypes self)))
  end.

End SparseTileDBTensorGenerator.

(** ** The two generator classes behind one interface *)

Inductive TileDBTensorGenerator : Type :=
| NumpyGen (g : TileDBNumpyGenerator.t)
| SparseGen (g : SparseTileDBTensorGenerator.t).

Definition read_buffer (self : TileDBTensorGenerator) (array_slice : slice)
  : M TileDBTensorGenerator :=
  match self with
  | NumpyGen g =>
      g' <- TileDBNumpyGenerator.read_buffer g array_slice ;; ret (NumpyGen g')
  | SparseGen g =>
      g' <- SparseTileDBTensorGenerator.read_buffer g array_slice ;;
      ret (SparseGen g')
  end.

Definition iter_tensors (self : TileDBTensorGenerator) (buffer_slice : slice)
  : Result (list Tensor) :=
  match self with
  | NumpyGen g => TileDBNumpyGenerator.iter_tensors g buffer_slice
  | SparseGen g => SparseTileDBTensorGenerator.iter_tensors g buffer_slice
  end.

(** ** tensor_generator *)

(** The fields of a [Batch] of [_batch_utils] that [tensor_generator] uses.
    A read slice is [None] or a slice object, and a slice object is truthy. *)
Record Batch : Type :=
  { x_read_slice : option slice;
    y_read_slice : option slice;
    x_buffer_slice : slice;
    y_buffer_slice : slice }.

(** The arguments of one call.  The two generator classes are the dense
    generator and the subclass of the sparse generator modelled above. *)
Record Args : Type :=
  { x_array : Array;
    y_array : Array;
    x_buffer_size : Z;
    y_buffer_size : Z;
    x_attrs : list string;
    y_attrs : list string;
    start_offset : Z;
    stop_offset : Z }.

Definition get_buffer_size_generator (array : Array) (attrs : list string)
  : M TileDBTensorGenerator :=
  if sparse (schema array) then
    g <- SparseTileDBTensorGenerator.init array attrs ;; ret (SparseGen g)
  else
    g <- TileDBNumpyGenerator.init array attrs ;; ret (NumpyGen g).

(** [t[0]] on a tuple *)
Definition getitem0 (t : list Z) : Result Z :=
  match t with
  | x :: _ => Ok x
  | [] => Raise (IndexError "tuple index out of range")
  end.

(** [if s: gen.read_buffer(s)] *)
Definition read_if (gen : TileDBTensorGenerator) (s : option slice)
  : M TileDBTensorGenerator :=
  match s with
  | Some array_slice => read_buffer gen array_slice
  | None => ret gen
  end.

(** The body of the [for] loop up to its [yield]: the generators after the
    step, the feature tensors and the label tensors. *)
Definition loop_body (x_gen y_gen : TileDBTensorGenerator) (batch : Batch)
  : M (TileDBTensorGenerator * TileDBTensorGenerator
       * (list Tensor * list Tensor)) :=
  x_gen <- read_if x_gen (x_read_slice batch) ;;
  y_gen <- read_if y_gen (y_read_slice batch) ;;
  x_tensors <- lift (iter_tensors x_gen (x_buffer_slice batch)) ;;
  y_tensors <- lift (iter_tensors y_gen (y_buffer_slice batch)) ;;
  ret (x_gen, y_gen, (x_tensors, y_tensors)).

(** A generator object of [tensor_generator]: called but not started,
    suspended at the [yield] with the batches still to come, or finished. *)
Inductive Generator : Type :=
| Created (a : Args)
| Suspended (x_gen y_gen : TileDBTensorGenerator) (rest : list Batch)
| Closed.

(** What [next(gen)] gives. *)
Inductive Outcome : Type :=
| Yielded (batch : list Tensor)
| StopIteration
| Raised (e : Exception).

(** Running the loop from its head. *)
Definition resume (x_gen y_gen : TileDBTensorGenerator) (batches : list Batch)
           (w : World) : Outcome * Generator * World :=
  match batches with
  | [] => (StopIteration, Closed, w)
  | batch :: rest =>
      match loop_body x_gen y_gen batch w with
      | (Ok (x_gen', y_gen', (x_tensors, y_tensors)), w') =>
          (Yielded (x_tensors ++ y_tensors), Suspended x_gen' y_gen' rest, w')
      | (Raise e, w') => (Raised e, Closed, w')
      end
  end.

(** One step of a run: the window and the tensors of the two streams. *)
Record Step : Type :=
  { step_batch : Batch; step_x : list Tensor; step_y : list Tensor }.

(** The tuple the step yields: the feature tensors unpacked, then the label
    tensors unpacked. *)
Definition step_yield (s : Step) : list Tensor := step_x s ++ step_y s.

(** A full traversal of the loop: its steps, the exception that ended it if
    one did, and the world afterwards. *)
Fixpoint run_loop (x_gen y_gen : TileDBTensorGenerator) (batches : list Batch)
         (w : World) : list Step * option Exception * World :=
  match batches with
  | [] => ([], None, w)
  | batch :: rest =>
      match loop_body x_gen y_gen batch w with
      | (Ok (x_gen', y_gen', (x_tensors, y_tensors)), w') =>
          let '(steps, err, w'') := run_loop x_gen' y_gen' rest w' in
          ({| step_batch := batch; step_x := x_tensors; step_y := y_tensors |}
             :: steps, err, w'')
      | (Raise e, w') => ([], Some e, w')
      end
  end.

Section Sequencer.

(** [iter_batches] of [_batch_utils]: the windows of a run, in order. *)
Variable iter_batches : Z -> Z -> Z -> Z -> list Batch.

(** The statements of the body before the loop. *)
Definition prologue (a : Args)
  : M (TileDBTensorGenerator * TileDBTensorGenerator * list Batch) :=
  x_gen <- get_buffer_size_generator (x_array a) (x_attrs a) ;;
  y_gen <- get_buffer_size_generator (y_array a) (y_attrs a) ;;
  stop_offset <- (if stop_offset a =? 0
                  then lift (getitem0 (array_shape (x_array a)))
                  else ret (stop_offset a)) ;;
  ret (x_gen, y_gen,
       iter_batches (x_buffer_size a) (y_buffer_size a)
                    (start_offset a) stop_offset).

(** Calling a generator function runs none of its body. *)
Definition tensor_generator (a : Args) : M Generator := ret (Created a).

(** [next(gen)] *)
Definition gen_next (g : Generator) (w : World) : Outcome * Generator * World :=
  match g with
  | Created a =>
      match prologue a w with
      | (Ok (x_gen, y_gen, batches), w') => resume x_gen y_gen batches w'
      | (Raise e, w') => (Raised e, Closed, w')
      end
  | Suspended x_gen y_gen rest => resume x_gen y_gen rest w
  | Closed => (StopIteration, Closed, w)
  end.

(** [for batch in gen], to the end. *)
Definition run (g : Generator) (w : World)
  : list Step * option Exception * World :=
  match g with
  | Created a =>
      match prologue a w with
      | (Ok (x_gen, y_gen, batches), w') => run_loop x_gen y_gen batches w'
      | (Raise e, w') => ([], Some e, w')
      end
  | Suspended x_gen y_gen rest => run_loop x_gen y_gen rest w
  | Closed => ([], None, w)
  end.

End Sequencer.

(** Modelled from the spec: [iter_batches] of [_batch_utils], which is not
    among the sources.  One cursor runs over the rows; a stream whose buffer
    is used up reads the next [buffer_size] rows (fewer at the end), and the
    step extracts, from both buffers, the rows up to the nearer buffer end. *)
Fixpoint windows (fuel : nat) (x_size y_size stop_offset : Z)
         (pos x_lo x_hi y_lo y_hi : Z) : list Batch :=
  match fuel with
  | O => []
  | S fuel' =>
      if stop_offset <=? pos then []
      else
        let x_read := pos =? x_hi in
        let y_read := pos =? y_hi in
        let x_lo' := if x_read then pos else x_lo in
        let x_hi' := if x_read then Z.min (pos + x_size) stop_offset else x_hi in
        let y_lo' := if y_read then pos else y_lo in
        let y_hi' := if y_read then Z.min (pos + y_size) stop_offset else y_hi in
        let width := Z.min (x_hi' - pos) (y_hi' - pos) in
        {| x_read_slice := if x_read then Some (Slice pos x_hi') else None;
           y_read_slice := if y_read then Some (Slice pos y_hi') else None;
           x_buffer_slice := Slice (pos - x_lo') (pos - x_lo' + width);
           y_buffer_slice := Slice (pos - y_lo') (pos - y_lo' + width) |}
          :: windows fuel' x_size y_size stop_offset
                     (pos + width) x_lo' x_hi' y_lo' y_hi'
  end.

Definition iter_batches_windows (x_size y_size start_offset stop_offset : Z)
  : list Batch :=
  windows (Z.to_nat (stop_offset - start_offset)) x_size y_size stop_offset
          start_offset start_offset start_offset start_offset start_offset.

(** ** Vocabulary of the statements *)

(** A full traversal by a fresh call: the call, then iteration to the end. *)
Definition traverse (iter_batches : Z -> Z -> Z -> Z -> list Batch)
           (a : Args) (w : World) : list Step * option Exception * World :=
  match tensor_generator a w with
  | (Ok g, w') => run iter_batches g w'
  | (Raise e, w') => ([], Some e, w')
  end.

(** A computation whose result does not depend on the reads made before. *)
Definition world_independent {A : Type} (c : M A) : Prop :=
  forall w1 w2, fst (c w1) = fst (c w2).

(** The leading dimension of a tensor. *)
Definition leading_dim (t : Tensor) : option Z :=
  match t with
  | DenseTensor a => Some (Z.of_nat (length a))
  | SparseTensor _ _ (n :: _) _ => Some n
  | SparseTensor _ _ [] _ => None
  end.

(** Every coordinate line of a sparse tensor is a (row, column) pair whose
    row lies in [[0, n)]. *)
Definition rows_rebased (n : Z) (t : Tensor) : Prop :=
  match t with
  | DenseTensor _ => True
  | SparseTensor _ coords _ _ =>
      forall rc, In rc coords -> exists r c, rc = [r; c] /\ 0 <= r < n
  end.

(** The extract slice lies inside a buffer of [n] rows. *)
Definition fits (n : option Z) (s : slice) : Prop :=
  match n with
  | Some n => 0 <= start s /\ start s <= stop s /\ stop s <= n
  | None => False
  end.

(** The buffer length of a stream after the read instruction of a step. *)
Definition buffered (n : option Z) (read_slice : option slice) : option Z :=
  match read_slice with
  | Some s => Some (slice_len s)
  | None => n
  end.

(** The window invariant of the data model: every extract slice lies inside
    the buffer its stream fetched last. *)
Fixpoint windows_fit (x_len y_len : option Z) (batches : list Batch) : Prop :=
  match batches with
  | [] => True
  | b :: rest =>
      fits (buffered x_len (x_read_slice b)) (x_buffer_slice b)
      /\ fits (buffered y_len (y_read_slice b)) (y_buffer_slice b)
      /\ windows_fit (buffered x_len (x_read_slice b))
                     (buffered y_len (y_read_slice b)) rest
  end.









(** A generator for [array] and [attrs] as the prologue constructs it,
    holding a buffer of [n] rows when [n] is given. *)
Definition gen_inv (array : Array) (attrs : list string) (n : option Z)
           (gen : TileDBTensorGenerator) : Prop :=
  match gen with
  | NumpyGen g =>
      sparse (schema array) = false
      /\ TileDBNumpyGenerator.query g = array_query array attrs
      /\ match n with
         | None => True
         | Some n =>
             exists bufs,
               TileDBNumpyGenerator.buf_arrays g = Some bufs
               /\ length bufs = length attrs
               /\ Forall (fun b => Z.of_nat (length b) = n) bufs
         end
  | SparseGen g =>
      sparse (schema array) = true
      /\ SparseTileDBTensorGenerator.query g = array_query array attrs
      /\ length (SparseTileDBTensorGenerator.attr_dtypes g) = length attrs
      /\ exists ncols,
          SparseTileDBTensorGenerator.row_shape g = [ncols]
          /\ match n with
             | None => True
             | Some n =>
                 exists csrs,
                   SparseTileDBTensorGenerator.buf_csrs g = Some csrs
                   /\ length csrs = length attrs
                   /\ Forall (fun m => csr_shape m = (n, ncols)) csrs
             end
  end.

(** ** Example arrays *)

(** The row indices of [[lo, hi)]. *)
Definition rows_between (lo hi : Z) : list Z :=
  map (fun i => lo + Z.of_nat i) (seq 0 (Z.to_nat (hi - lo))).

(** A dense array of [nrows] rows of two cells, row [i] holding [2i] and
    [2i+1] in every attribute.  The store answers as a dictionary, once per
    attribute name, and a slice is clipped to the rows that exist. *)
Definition dense_example (name : string) (nrows : Z) : Array :=
  {| uri := name;
     schema := {| sparse := false;
                  dims := [ {| dim_name := "rows"; dim_size := nrows |};
                            {| dim_name := "cols"; dim_size := 2 |} ];
                  attrs := [ {| attr_name := "data"; attr_dtype := "int64" |} ] |};
     dense_cells := fun attrs s =>
       let '(lo, hi) := slice_indices s nrows in
       Ok (map (fun a => (a, map (fun i => [2 * i; 2 * i + 1])
                                 (rows_between lo hi)))
               (nodup string_dec attrs));
     sparse_cells := fun _ _ => Raise (TileDBError "not a sparse array") |}.

(** A sparse array over the given dimensions with one cell per row, row [i]
    holding [i + 1] at column [i mod 3]. *)
Definition sparse_example (name : string) (ds : list Dim) : Array :=
  {| uri := name;
     schema := {| sparse := true;
                  dims := ds;
                  attrs := [ {| attr_name := "data"; attr_dtype := "float32" |} ] |};
     dense_cells := fun _ _ => Raise (TileDBError "not a dense array");
     sparse_cells := fun attrs s =>
       let rs := rows_between (start s) (stop s) in
       Ok ([ ("rows", rs); ("cols", map (fun i => i mod 3) rs) ]
             ++ map (fun a => (a, map (fun i => i + 1) rs))
                    (nodup string_dec attrs)) |}.

Definition dims2 (nrows : Z) : list Dim :=
  [ {| dim_name := "rows"; dim_size := nrows |};
    {| dim_name := "cols"; dim_size := 3 |} ].

Definition dims3 (nrows : Z) : list Dim :=
  dims2 nrows ++ [ {| dim_name := "depth"; dim_size := 2 |} ].

(** The sparse generator over a 9 by 3 example array, as constructed. *)
Definition sparse_gen_example : SparseTileDBTensorGenerator.t :=
  {| SparseTileDBTensorGenerator.row_dim := "rows";
     SparseTileDBTensorGenerator.col_dim := "cols";
     SparseTileDBTensorGenerator.row_shape := [3];
     SparseTileDBTensorGenerator.attr_dtypes := ["float32"];
     SparseTileDBTensorGenerator.query :=
       array_query (sparse_example "x" (dims2 9)) ["data"];
     SparseTileDBTensorGenerator.buf_csrs := None |}.

(** The same generator after [read_buffer] of rows 3 to 6. *)
Definition sparse_gen_example_read : SparseTileDBTensorGenerator.t :=
  match SparseTileDBTensorGenerator.read_buffer sparse_gen_example
                                                (Slice 3 7) [] with
  | (Ok self, _) => self
  | (Raise _, _) => sparse_gen_example
  end.

Definition example_args (x y : Array) (x_size y_size : Z) : Args :=
  {| x_array := x; y_array := y;
     x_buffer_size := x_size; y_buffer_size := y_size;
     x_attrs := ["data"]; y_attrs := ["data"];
     start_offset := 0; stop_offset := 0 |}.

(** Feature and label arrays that disagree on the number of rows. *)
Definition mismatch_args : Args :=
  {| x_array := dense_example "x" 108; y_array := dense_example "y" 107;
     x_buffer_size := 50; y_buffer_size := 50;
     x_attrs := ["data"]; y_attrs := ["data"];
     start_offset := 0; stop_offset := 0 |}.

(** ** Further vocabulary *)

(** The query a generator reads through. *)
Definition gen_query (gen : TileDBTensorGenerator) : Query :=
  match gen with
  | NumpyGen g => TileDBNumpyGenerator.query g
  | SparseGen g => SparseTileDBTensorGenerator.query g
  end.

(** The store raises [e] when the generator reads [s]. *)
Definition store_read_fails (gen : TileDBTensorGenerator) (s : slice)
           (e : Exception) : Prop :=
  match gen with
  | NumpyGen g =>
      dense_cells (q_array (TileDBNumpyGenerator.query g))
                  (q_attrs (TileDBNumpyGenerator.query g)) s = Raise e
  | SparseGen g =>
      sparse_cells (q_array (SparseTileDBTensorGenerator.query g))
                   (q_attrs (SparseTileDBTensorGenerator.query g)) s = Raise e
  end.

(** The reads a window asks for, the feature stream first. *)
Definition slice_reads (q : Query) (s : option slice) : list ReadEvent :=
  match s with
  | Some s => [read_event q s]
  | None => []
  end.

Definition batch_reads (xq yq : Query) (b : Batch) : list ReadEvent :=
  slice_reads xq (x_read_slice b) ++ slice_reads yq (y_read_slice b).

Definition reads_of (xq yq : Query) (batches : list Batch) : list ReadEvent :=
  flat_map (batch_reads xq yq) batches.

(** The number of rows a slice with bounds that are not negative takes out of
    [n] rows. *)
Definition clipped_len (s : slice) (n : Z) : Z :=
  Z.max 0 (Z.min (stop s) n - Z.min (start s) n).

(** The same call with another [stop_offset]. *)
Definition with_stop_offset (a : Args) (n : Z) : Args :=
  {| x_array := x_array a; y_array := y_array a;
     x_buffer_size := x_buffer_size a; y_buffer_size := y_buffer_size a;
     x_attrs := x_attrs a; y_attrs := y_attrs a;
     start_offset := start_offset a; stop_offset := n |}.

(** A sparse array whose store answers with the row coordinates it is given,
    whatever the slice. *)
Definition stray_example (rows : list Z) : Array :=
  {| uri := "stray";
     schema := {| sparse := true;
                  dims := [ {| dim_name := "rows"; dim_size := 9 |};
                            {| dim_name := "cols"; dim_size := 3 |} ];
                  attrs := [ {| attr_name := "data"; attr_dtype := "float32" |} ] |};
     dense_cells := fun _ _ => Raise (TileDBError "not a dense array");
     sparse_cells := fun attrs _ =>
       Ok ([ ("rows", rows); ("cols", map (fun _ => 0) rows) ]
             ++ map (fun a => (a, map (fun i => i + 1) rows))
                    (nodup string_dec attrs)) |}.

(** An array whose store fails on every read. *)
Definition failing_example (name : string) : Array :=
  {| uri := name;
     schema := {| sparse := false;
                  dims := [ {| dim_name := "rows"; dim_size := 9 |};
                            {| dim_name := "cols"; dim_size := 2 |} ];
                  attrs := [ {| attr_name := "data"; attr_dtype := "int64" |} ] |};
     dense_cells := fun _ _ => Raise (TileDBError "read failed");
     sparse_cells := fun _ _ => Raise (TileDBError "read failed") |}.

(** * Properties *)

(** ** Slices *)

Section SliceFacts.

Context {A : Type}.

Lemma slice_indices_inside (s : slice) (n : Z) :
  0 <= start s -> start s <= stop s -> stop s <= n ->
  slice_indices s n = (start s, stop s).
Proof.
  intros H0 H1 H2. unfold slice_indices, clamp_index.
  destruct (start s <? 0) eqn:Ea; [apply Z.ltb_lt in Ea; lia|].
  destruct (stop s <? 0) eqn:Eb; [apply Z.ltb_lt in Eb; lia|].
  f_equal; lia.
Qed.

Lemma getitem_slice_inside (l : list A) (s : slice) :
  0 <= start s -> start s <= stop s -> stop s <= Z.of_nat (length l) ->
  getitem_slice l s
  = firstn (Z.to_nat (slice_len s)) (skipn (Z.to_nat (start s)) l).
Proof.
  intros H0 H1 H2. unfold getitem_slice.
  rewrite slice_indices_inside by assumption. reflexivity.
Qed.

Lemma getitem_slice_length (l : list A) (s : slice) :
  0 <= start s -> start s <= stop s -> stop s <= Z.of_nat (length l) ->
  Z.of_nat (length (getitem_slice l s)) = slice_len s.
Proof.
  intros H0 H1 H2. rewrite getitem_slice_inside by assumption.
  rewrite length_firstn, length_skipn. unfold slice_len. lia.
Qed.

Lemma nth_error_firstn_skipn (l : list A) (a k i : nat) :
  (i < k)%nat -> nth_error (firstn k (skipn a l)) i = nth_error l (a + i).
Proof.
  intros Hi. rewrite nth_error_firstn.
  destruct (Nat.ltb_spec i k); [|lia].
  apply nth_error_skipn.
Qed.

Lemma getitem_slice_nth (l : list A) (s : slice) (i : Z) :
  0 <= start s -> start s <= stop s -> stop s <= Z.of_nat (length l) ->
  0 <= i < slice_len s ->
  nth_error (getitem_slice l s) (Z.to_nat i)
  = nth_error l (Z.to_nat (start s + i)).
Proof.
  intros H0 H1 H2 Hi. rewrite getitem_slice_inside by assumption.
  rewrite nth_error_firstn_skipn by lia.
  f_equal. lia.
Qed.

End SliceFacts.

(** ** The store monad *)

Lemma bind_ok {A B : Type} (c : M A) (k : A -> M B) (w w' : World) (a : A) :
  c w = (Ok a, w') -> bind c k w = k a w'.
Proof. intros H. unfold bind. rewrite H. reflexivity. Qed.

Lemma bind_raise {A B : Type} (c : M A) (k : A -> M B) (w w' : World) e :
  c w = (Raise e, w') -> bind c k w = (Raise e, w').
Proof. intros H. unfold bind. rewrite H. reflexivity. Qed.

Lemma bind_inv {A B : Type} (c : M A) (k : A -> M B) (w w' : World) (b : B) :
  bind c k w = (Ok b, w') ->
  exists a w1, c w = (Ok a, w1) /\ k a w1 = (Ok b, w').
Proof.
  unfold bind. destruct (c w) as [[a|e] w1]; intros H.
  - exists a, w1. split; [reflexivity | exact H].
  - discriminate H.
Qed.

Lemma map_result_length {A B : Type} (f : A -> Result B) (l : list A) bs :
  map_result f l = Ok bs -> length bs = length l.
Proof.
  revert bs. induction l as [|a l IH]; simpl; intros bs H.
  - injection H as <-. reflexivity.
  - destruct (f a) as [b|e]; [|discriminate].
    destruct (map_result f l) as [bs'|e]; [|discriminate].
    injection H as <-. simpl. f_equal. apply IH. reflexivity.
Qed.

Lemma map_result_Forall2 {A B : Type} (f : A -> Result B) (l : list A) bs :
  map_result f l = Ok bs -> Forall2 (fun a b => f a = Ok b) l bs.
Proof.
  revert bs. induction l as [|a l IH]; simpl; intros bs H.
  - injection H as <-. constructor.
  - destruct (f a) as [b|e] eqn:Ef; [|discriminate].
    destruct (map_result f l) as [bs'|e]; [|discriminate].
    injection H as <-. constructor; [exact Ef | apply IH; reflexivity].
Qed.

Lemma map_result_total {A B : Type} (f : A -> Result B) (l : list A) :
  Forall (fun a => exists b, f a = Ok b) l -> exists bs, map_result f l = Ok bs.
Proof.
  induction 1 as [|a l [b Hb] _ [bs IH]]; simpl.
  - exists []. reflexivity.
  - rewrite Hb, IH. exists (b :: bs). reflexivity.
Qed.

(** ** The dense generator *)

Lemma numpy_read_buffer_run (self : TileDBNumpyGenerator.t) (s : slice)
      (w : World) buffer :
  dense_cells (q_array (TileDBNumpyGenerator.query self))
              (q_attrs (TileDBNumpyGenerator.query self)) s = Ok buffer ->
  TileDBNumpyGenerator.read_buffer self s w
  = (Ok {| TileDBNumpyGenerator.query := TileDBNumpyGenerator.query self;
           TileDBNumpyGenerator.buf_arrays := Some (od_values buffer) |},
     w ++ [read_event (TileDBNumpyGenerator.query self) s]).
Proof.
  intros H. unfold TileDBNumpyGenerator.read_buffer, bind, query_getitem_dense.
  rewrite H. reflexivity.
Qed.

(** C7.  After [read_buffer] has stored the store's answer for the requested
    attributes, [iter_tensors] over an extract slice lying inside the buffer
    yields exactly one tensor per attribute, in the order of the attributes;
    the k-th tensor has as many rows as the slice and its i-th row is row
    [start + i] of the array buffered for the k-th attribute, unchanged. *)
Theorem numpy_iter_tensors_slices_buffer
        (self : TileDBNumpyGenerator.t) (read_slice extract_slice : slice)
        (w : World) (buffer : OrderedDict ndarray) :
  dense_cells (q_array (TileDBNumpyGenerator.query self))
              (q_attrs (TileDBNumpyGenerator.query self)) read_slice
  = Ok buffer ->
  map fst buffer = q_attrs (TileDBNumpyGenerator.query self) ->
  Forall (fun p => Z.of_nat (length (snd p)) = slice_len read_slice) buffer ->
  0 <= start extract_slice ->
  start extract_slice <= stop extract_slice ->
  stop extract_slice <= slice_len read_slice ->
  exists self' w' tensors,
    TileDBNumpyGenerator.read_buffer self read_slice w = (Ok self', w')
    /\ TileDBNumpyGenerator.iter_tensors self' extract_slice = Ok tensors
    /\ length tensors = length (q_attrs (TileDBNumpyGenerator.query self))
    /\ forall k name,
        nth_error (q_attrs (TileDBNumpyGenerator.query self)) k = Some name ->
        exists buf_array t,
          nth_error buffer k = Some (name, buf_array)
          /\ nth_error tensors k = Some (DenseTensor t)
          /\ Z.of_nat (length t) = slice_len extract_slice
          /\ forall i, 0 <= i < slice_len extract_slice ->
                       nth_error t (Z.to_nat i)
                       = nth_error buf_array
                                   (Z.to_nat (start extract_slice + i)).
Proof.
  intros Hread Hkeys Hrows H0 H1 H2.
  eexists _, _, _. split; [apply numpy_read_buffer_run; exact Hread|].
  unfold TileDBNumpyGenerator.iter_tensors; simpl.
  split; [reflexivity|]. split.
  - rewrite length_map. unfold od_values. rewrite length_map.
    rewrite <- Hkeys. now rewrite length_map.
  - intros k name Hk. rewrite <- Hkeys in Hk.
    rewrite nth_error_map in Hk.
    destruct (nth_error buffer k) as [[name' buf_array]|] eqn:Eb;
      [|discriminate].
    simpl in Hk. injection Hk as ->.
    exists buf_array, (getitem_slice buf_array extract_slice).
    assert (Hlen : Z.of_nat (length buf_array) = slice_len read_slice).
    { rewrite Forall_forall in Hrows.
      apply (Hrows (name, buf_array)). eapply nth_error_In; exact Eb. }
    split; [reflexivity|]. split.
    + unfold od_values. rewrite !nth_error_map, Eb. reflexivity.
    + split.
      * apply getitem_slice_length; lia.
      * intros i Hi. apply getitem_slice_nth; lia.
Qed.

Lemma numpy_iter_tensors_slices_buffer_witness :
  exists self' w' tensors,
    TileDBNumpyGenerator.read_buffer
      {| TileDBNumpyGenerator.query :=
           array_query (dense_example "x" 10) ["data"];
         TileDBNumpyGenerator.buf_arrays := None |}
      (Slice 3 7) [] = (Ok self', w')
    /\ TileDBNumpyGenerator.iter_tensors self' (Slice 1 3) = Ok tensors
    /\ length tensors = 1%nat
    /\ forall k name,
        nth_error ["data"] k = Some name ->
        exists buf_array t,
          nth_error [("data", [[6; 7]; [8; 9]; [10; 11]; [12; 13]])] k
          = Some (name, buf_array)
          /\ nth_error tensors k = Some (DenseTensor t)
          /\ Z.of_nat (length t) = 2
          /\ forall i, 0 <= i < 2 ->
                       nth_error t (Z.to_nat i)
                       = nth_error buf_array (Z.to_nat (1 + i)).
Proof.
  apply (numpy_iter_tensors_slices_buffer
           {| TileDBNumpyGenerator.query :=
                array_query (dense_example "x" 10) ["data"];
              TileDBNumpyGenerator.buf_arrays := None |}
           (Slice 3 7) (Slice 1 3) []
           [("data", [[6; 7]; [8; 9]; [10; 11]; [12; 13]])]).
  - reflexivity.
  - reflexivity.
  - repeat constructor.
  - simpl; lia.
  - simpl; lia.
  - unfold slice_len; simpl; lia.
Defined.

(** ** Construction of the generators *)

Lemma sparse_init_unsupported (array : Array) (attrs : list string) (w : World) :
  ndim (schema array) <> 2 ->
  SparseTileDBTensorGenerator.init array attrs w
  = (Raise (NotImplementedError
              "Only 2D sparse tensors are currently supported"), w).
Proof.
  intros H. unfold SparseTileDBTensorGenerator.init.
  destruct (ndim (schema array) =? 2) eqn:E.
  - apply Z.eqb_eq in E. contradiction.
  - reflexivity.
Qed.

Lemma sparse_init_2d (array : Array) (attrs : list string) (w : World) :
  ndim (schema array) = 2 ->
  Forall (fun attr => exists a, schema_attr (schema array) attr = Ok a) attrs ->
  exists d0 d1 dtypes,
    dims (schema array) = [d0; d1]
    /\ length dtypes = length attrs
    /\ SparseTileDBTensorGenerator.init array attrs w
       = (Ok {| SparseTileDBTensorGenerator.row_dim := dim_name d0;
                SparseTileDBTensorGenerator.col_dim := dim_name d1;
                SparseTileDBTensorGenerator.row_shape := [dim_size d1];
                SparseTileDBTensorGenerator.attr_dtypes := dtypes;
                SparseTileDBTensorGenerator.query := array_query array attrs;
                SparseTileDBTensorGenerator.buf_csrs := None |}, w).
Proof.
  intros Hn Hattrs. unfold ndim in Hn.
  destruct (dims (schema array)) as [|d0 [|d1 [|d2 ds]]] eqn:Ed;
    simpl in Hn; try lia.
  destruct (map_result_total
              (fun attr => match schema_attr (schema array) attr with
                           | Ok a => Ok (attr_dtype a)
                           | Raise e => Raise e
                           end) attrs) as [dtypes Hd].
  { eapply Forall_impl; [|exact Hattrs].
    intros attr [a Ha]. rewrite Ha. eexists; reflexivity. }
  exists d0, d1, dtypes. split; [reflexivity|]. split.
  - eapply map_result_length; exact Hd.
  - unfold SparseTileDBTensorGenerator.init, ndim, domain_dim, shape.
    rewrite Ed. simpl. unfold bind, lift. rewrite Hd. reflexivity.
Qed.

(** C6.  Constructing the sparse generator over a schema whose number of
    dimensions is not 2 raises [NotImplementedError] and nothing else happens:
    no generator results and the store is not read.  Over a 2-dimensional
    schema, with attribute names of the array, construction returns a
    generator that has no buffer yet, again without reading the store. *)
Theorem sparse_init_schema_guard
        (array : Array) (attrs : list string) (w : World) :
  (ndim (schema array) <> 2 ->
   SparseTileDBTensorGenerator.init array attrs w
   = (Raise (NotImplementedError
               "Only 2D sparse tensors are currently supported"), w))
  /\ (ndim (schema array) = 2 ->
      Forall (fun attr => exists a, schema_attr (schema array) attr = Ok a)
             attrs ->
      exists self,
        SparseTileDBTensorGenerator.init array attrs w = (Ok self, w)
        /\ SparseTileDBTensorGenerator.buf_csrs self = None
        /\ SparseTileDBTensorGenerator.row_shape self
           = tl (shape (schema array))
        /\ length (SparseTileDBTensorGenerator.attr_dtypes self)
           = length attrs).
Proof.
  split.
  - apply sparse_init_unsupported.
  - intros Hn Hattrs.
    destruct (sparse_init_2d array attrs w Hn Hattrs)
      as (d0 & d1 & dtypes & Ed & Hlen & Hinit).
    eexists. split; [exact Hinit|]. simpl.
    unfold shape. rewrite Ed. repeat split. exact Hlen.
Qed.

Lemma sparse_init_schema_guard_witness :
  SparseTileDBTensorGenerator.init
    (sparse_example "x" (dims3 9)) ["data"] []
  = (Raise (NotImplementedError
              "Only 2D sparse tensors are currently supported"), [])
  /\ exists self,
      SparseTileDBTensorGenerator.init
        (sparse_example "x" (dims2 9)) ["data"] [] = (Ok self, [])
      /\ SparseTileDBTensorGenerator.buf_csrs self = None
      /\ SparseTileDBTensorGenerator.row_shape self = [3]
      /\ length (SparseTileDBTensorGenerator.attr_dtypes self) = 1%nat.
Proof.
  split.
  - apply (sparse_init_schema_guard (sparse_example "x" (dims3 9)) ["data"] []).
    vm_compute. discriminate.
  - apply (sparse_init_schema_guard (sparse_example "x" (dims2 9)) ["data"] []).
    + reflexivity.
    + repeat constructor. eexists. reflexivity.
Defined.

(** C9.  A generator that has just been constructed, dense or sparse, and on
    which [read_buffer] has not run gives no tensor: draining
    [iter_tensors] raises [AttributeError] at the first pull, for the buffer
    attribute that does not exist yet. *)
Theorem iter_tensors_before_read_buffer
        (array : Array) (attrs : list string) (w w' : World)
        (gen : TileDBTensorGenerator) (buffer_slice : slice) :
  get_buffer_size_generator array attrs w = (Ok gen, w') ->
  iter_tensors gen buffer_slice
  = Raise (AttributeError (if sparse (schema array)
                           then "_buf_csrs" else "_buf_arrays")).
Proof.
  unfold get_buffer_size_generator. intros H.
  destruct (sparse (schema array)).
  - apply bind_inv in H. destruct H as (g & w1 & Hinit & Hret).
    injection Hret as <- _.
    unfold SparseTileDBTensorGenerator.init in Hinit.
    destruct (negb (ndim (schema array) =? 2)); [discriminate|].
    apply bind_inv in Hinit. destruct Hinit as (d0 & w2 & _ & Hinit).
    apply bind_inv in Hinit. destruct Hinit as (d1 & w3 & _ & Hinit).
    apply bind_inv in Hinit. destruct Hinit as (dtypes & w4 & _ & Hinit).
    injection Hinit as <- _. reflexivity.
  - apply bind_inv in H. destruct H as (g & w1 & Hinit & Hret).
    injection Hret as <- _. injection Hinit as <- _. reflexivity.
Qed.

Lemma iter_tensors_before_read_buffer_witness :
  (exists gen,
      get_buffer_size_generator (sparse_example "x" (dims2 9)) ["data"] []
      = (Ok gen, [])
      /\ iter_tensors gen (Slice 0 3) = Raise (AttributeError "_buf_csrs"))
  /\ (exists gen,
         get_buffer_size_generator (dense_example "y" 9) ["data"] []
         = (Ok gen, [])
         /\ iter_tensors gen (Slice 0 3) = Raise (AttributeError "_buf_arrays")).
Proof.
  split; eexists; (split; [reflexivity|]).
  - apply (iter_tensors_before_read_buffer
             (sparse_example "x" (dims2 9)) ["data"] [] []).
    reflexivity.
  - apply (iter_tensors_before_read_buffer
             (dense_example "y" 9) ["data"] [] []).
    reflexivity.
Defined.

(** ** Row-compressed matrices *)

Section CsrFacts.

Lemma insert_sum_cols (c0 v0 c : Z) (r : list (Z * Z)) :
  has_col c (insert_sum c0 v0 r) <-> c = c0 \/ has_col c r.
Proof.
  unfold has_col. induction r as [|[c' v'] r IH]; simpl.
  - split.
    + intros [v [H|[]]]. left. congruence.
    + intros [->|[v []]]. exists v0. now left.
  - destruct (c0 <? c') eqn:E1; [|destruct (c0 =? c') eqn:E2].
    + split.
      * intros [v [H|H]]; [left; congruence | right; now exists v].
      * intros [->|[v H]]; [exists v0; now left | exists v; now right].
    + apply Z.eqb_eq in E2. subst c'. split.
      * intros [v [H|H]]; [left; congruence | right; exists v; now right].
      * intros [->|[v [H|H]]].
        -- exists (v' + v0). now left.
        -- injection H as -> _. exists (v' + v0). now left.
        -- exists v. now right.
    + split.
      * intros [v [H|H]].
        -- right. exists v. now left.
        -- destruct (proj1 IH (ex_intro _ v H)) as [->|[v1 H1]];
             [now left | right; exists v1; now right].
      * intros [->|[v [H|H]]].
        -- destruct (proj2 IH (or_introl eq_refl)) as [v1 H1].
           exists v1. now right.
        -- exists v. now left.
        -- destruct (proj2 IH (or_intror (ex_intro _ v H))) as [v1 H1].
           exists v1. now right.
Qed.

Lemma fold_insert_cols (es : list entry) (i c : Z) (acc : list (Z * Z)) :
  has_col c (fold_left (fun acc (e : entry) =>
                          let '(r, c, v) := e in
                          if r =? i then insert_sum c v acc else acc) es acc)
  <-> has_col c acc \/ exists v, In (i, c, v) es.
Proof.
  revert acc. induction es as [|[[r0 c0] v0] es IH]; intros acc; simpl.
  - split; [now left | intros [H|[v []]]; exact H].
  - rewrite IH. destruct (r0 =? i) eqn:E.
    + apply Z.eqb_eq in E. subst r0. rewrite insert_sum_cols. split.
      * intros [[->|H]|[v H]].
        -- right. exists v0. now left.
        -- now left.
        -- right. exists v. now right.
      * intros [H|[v [H|H]]].
        -- left. now right.
        -- injection H as -> _. left. now left.
        -- right. now exists v.
    + apply Z.eqb_neq in E. split.
      * intros [H|[v H]]; [now left | right; exists v; now right].
      * intros [H|[v [H|H]]].
        -- now left.
        -- injection H as -> _ _. contradiction.
        -- right. now exists v.
Qed.

Lemma csr_row_of_cols (es : list entry) (i c : Z) :
  has_col c (csr_row_of es i) <-> exists v, In (i, c, v) es.
Proof.
  unfold csr_row_of. rewrite fold_insert_cols. split.
  - intros [[v []]|H]; exact H.
  - intros H. now right.
Qed.

Lemma rows_entries_In (rows : list (list (Z * Z))) (i r c v : Z) :
  In (r, c, v) (rows_entries i rows)
  <-> exists k row, nth_error rows k = Some row
                    /\ r = i + Z.of_nat k /\ In (c, v) row.
Proof.
  revert i. induction rows as [|row0 rows IH]; intros i; simpl.
  - split; [intros [] | intros (k & row & H & _)].
    destruct k; discriminate H.
  - rewrite in_app_iff, in_map_iff, IH. split.
    + intros [([c1 v1] & H1 & H2)|(k & row & H1 & H2 & H3)].
      * simpl in H1. injection H1 as <- <- <-.
        exists 0%nat, row0. split; [reflexivity|]. split; [lia | exact H2].
      * exists (S k), row. split; [exact H1|]. split; [lia | exact H3].
    + intros (k & row & H1 & H2 & H3). destruct k as [|k]; simpl in H1.
      * injection H1 as ->. left. exists (c, v). simpl. split; [|exact H3].
        replace r with i by lia. reflexivity.
      * right. exists k, row. split; [exact H1|]. split; [lia | exact H3].
Qed.

Lemma rows_entries_row_bound (rows : list (list (Z * Z))) (i r c v : Z) :
  In (r, c, v) (rows_entries i rows) ->
  i <= r < i + Z.of_nat (length rows).
Proof.
  rewrite rows_entries_In. intros (k & row & H1 & H2 & _).
  assert (k < length rows)%nat by (apply nth_error_Some; congruence). lia.
Qed.

Lemma combine_with_values {A B : Type} (l : list A) (d : list B) (p : A) :
  length l = length d ->
  ((exists v, In (p, v) (combine l d)) <-> In p l).
Proof.
  revert d. induction l as [|a l IH]; intros [|b d] Hlen; simpl in *;
    try discriminate.
  - split; [intros [v []] | intros []].
  - injection Hlen as Hlen. specialize (IH d Hlen). split.
    + intros [v [H|H]]; [left; congruence | right; apply IH; now exists v].
    + intros [->|H]; [exists b; now left|].
      destruct (proj2 IH H) as [v Hv]. exists v. now right.
Qed.

Lemma combine_map_left {A B C : Type} (f : A -> B) (l : list A) (l' : list C)
      (b : B) (c : C) :
  In (b, c) (combine (map f l) l')
  <-> exists a, b = f a /\ In (a, c) (combine l l').
Proof.
  revert l'. induction l as [|a l IH]; intros [|c' l']; simpl.
  - split; [intros [] | intros (a & _ & [])].
  - split; [intros [] | intros (a & _ & [])].
  - split; [intros [] | intros (a0 & _ & [])].
  - rewrite IH. split.
    + intros [H|(a0 & H1 & H2)].
      * injection H as <- <-. exists a. split; [reflexivity | now left].
      * exists a0. split; [exact H1 | now right].
    + intros (a0 & H1 & [H2|H2]).
      * injection H2 as <- <-. left. now rewrite H1.
      * right. exists a0. now split.
Qed.

Lemma csr_rows_of_entries (es : list entry) (m r c : Z) :
  Forall (fun e : entry => 0 <= fst (fst e) < m) es ->
  ((exists v,
       In (r, c, v)
          (rows_entries 0 (map (fun i => csr_row_of es (Z.of_nat i))
                               (seq 0 (Z.to_nat m)))))
   <-> exists v, In (r, c, v) es).
Proof.
  intros Hb. split.
  - intros [v H]. apply rows_entries_In in H.
    destruct H as (k & row & H1 & H2 & H3).
    rewrite nth_error_map in H1.
    destruct (nth_error (seq 0 (Z.to_nat m)) k) as [j|] eqn:Ej;
      [|discriminate].
    simpl in H1. injection H1 as <-.
    assert (Hk : (k < length (seq 0 (Z.to_nat m)))%nat)
      by (apply nth_error_Some; congruence).
    rewrite length_seq in Hk.
    rewrite nth_error_seq in Ej.
    destruct (Nat.ltb_spec k (Z.to_nat m)); [|discriminate].
    injection Ej as <-. simpl in H2. subst r.
    apply csr_row_of_cols. now exists v.
  - intros [v H].
    assert (Hr : 0 <= r < m).
    { rewrite Forall_forall in Hb. apply (Hb (r, c, v) H). }
    destruct (proj2 (csr_row_of_cols es r c) (ex_intro _ v H)) as [v' Hv'].
    exists v'. apply rows_entries_In.
    exists (Z.to_nat r), (csr_row_of es r). split; [|split].
    + rewrite nth_error_map, nth_error_seq.
      destruct (Nat.ltb_spec (Z.to_nat r) (Z.to_nat m)); [|lia].
      simpl. rewrite Z2Nat.id by lia. reflexivity.
    + lia.
    + exact Hv'.
Qed.

End CsrFacts.

(** ** The sparse generator *)

Lemma map_result_map {A B : Type} (f : A -> Result B) (g : A -> B) (l : list A) :
  (forall a, In a l -> f a = Ok (g a)) -> map_result f l = Ok (map g l).
Proof.
  induction l as [|a l IH]; simpl; intros H; [reflexivity|].
  rewrite (H a (or_introl eq_refl)), IH; [reflexivity|].
  intros a' Ha'. apply H. now right.
Qed.

Lemma sp_csr_matrix_ok (data row col : list Z) (m n : Z) :
  0 <= m -> 0 <= n ->
  length row = length data -> length col = length data ->
  Forall (fun r => 0 <= r < m) row -> Forall (fun c => 0 <= c < n) col ->
  sp_csr_matrix data row col [m; n]
  = Ok {| csr_shape := (m, n);
          csr_rows := map (fun i => csr_row_of (coo_entries data row col)
                                               (Z.of_nat i))
                          (seq 0 (Z.to_nat m)) |}.
Proof.
  intros Hm Hn Hr Hc Hrow Hcol. unfold sp_csr_matrix.
  destruct (m <? 0) eqn:E1; [apply Z.ltb_lt in E1; lia|].
  destruct (n <? 0) eqn:E2; [apply Z.ltb_lt in E2; lia|].
  rewrite Hr, Hc, !Nat.eqb_refl. simpl.
  replace (forallb (entry_in_bounds m n) (coo_entries data row col)) with true;
    [reflexivity|].
  symmetry. apply forallb_forall. intros [[r c] v] Hin.
  unfold coo_entries in Hin. apply in_combine_l in Hin.
  rewrite Forall_forall in Hrow, Hcol.
  pose proof (Hrow r (in_combine_l _ _ _ _ Hin)).
  pose proof (Hcol c (in_combine_r _ _ _ _ Hin)).
  unfold entry_in_bounds.
  repeat (apply andb_true_intro; split);
    (apply Z.leb_le || apply Z.ltb_lt); lia.
Qed.

Lemma coo_entries_rows (data row col : list Z) (m : Z) :
  Forall (fun r => 0 <= r < m) row ->
  Forall (fun e : entry => 0 <= fst (fst e) < m) (coo_entries data row col).
Proof.
  intros H. apply Forall_forall. intros [[r c] v] Hin. simpl.
  unfold coo_entries in Hin. apply in_combine_l, in_combine_l in Hin.
  rewrite Forall_forall in H. now apply H.
Qed.

Lemma coo_entries_coords (data row col : list Z) (r c : Z) :
  length row = length data -> length col = length data ->
  ((exists v, In (r, c, v) (coo_entries data row col))
   <-> In (r, c) (combine row col)).
Proof.
  intros Hr Hc. unfold coo_entries. apply combine_with_values.
  rewrite length_combine. lia.
Qed.

(** C2.  For a sparse generator over a two-dimensional array and a read
    slice [[start, stop)] that the store answers with the coordinates in the
    slice and one value vector per requested attribute, [read_buffer] reads
    the store once and leaves one row-compressed matrix per requested
    attribute, each of shape [(stop - start, ncols)], holding an entry at
    [(r - start, c)] exactly for the coordinates [(r, c)] that were read. *)
Theorem sparse_read_buffer_rebases_rows
        (self : SparseTileDBTensorGenerator.t) (array_slice : slice)
        (w : World) (buffer rest datas : OrderedDict (list Z))
        (row col : list Z) (ncols : Z) :
  SparseTileDBTensorGenerator.row_shape self = [ncols] ->
  0 <= ncols ->
  start array_slice <= stop array_slice ->
  sparse_cells (q_array (SparseTileDBTensorGenerator.query self))
               (q_attrs (SparseTileDBTensorGenerator.query self)) array_slice
  = Ok buffer ->
  od_pop (SparseTileDBTensorGenerator.row_dim self) buffer = Some (row, rest) ->
  od_pop (SparseTileDBTensorGenerator.col_dim self) rest = Some (col, datas) ->
  map fst datas = q_attrs (SparseTileDBTensorGenerator.query self) ->
  length col = length row ->
  Forall (fun p => length (snd p) = length row) datas ->
  Forall (fun r => start array_slice <= r < stop array_slice) row ->
  Forall (fun c => 0 <= c < ncols) col ->
  exists self' csrs,
    SparseTileDBTensorGenerator.read_buffer self array_slice w
    = (Ok self',
       w ++ [read_event (SparseTileDBTensorGenerator.query self) array_slice])
    /\ SparseTileDBTensorGenerator.buf_csrs self' = Some csrs
    /\ length csrs
       = length (q_attrs (SparseTileDBTensorGenerator.query self))
    /\ Forall (fun m =>
                 csr_shape m = (stop array_slice - start array_slice, ncols)
                 /\ Z.of_nat (length (csr_rows m))
                    = stop array_slice - start array_slice
                 /\ forall r c,
                     (exists v, In (r, c, v) (rows_entries 0 (csr_rows m)))
                     <-> In (r + start array_slice, c) (combine row col))
              csrs.
Proof.
  intros Hshape Hn Hs Hread Hrow Hcol Hkeys Hlc Hld Hrows Hcols.
  set (row' := map (fun r => r - start array_slice) row).
  set (m := stop array_slice - start array_slice).
  set (build := fun data =>
         {| csr_shape := (m, ncols);
            csr_rows := map (fun i => csr_row_of (coo_entries data row' col)
                                                 (Z.of_nat i))
                            (seq 0 (Z.to_nat m)) |}).
  assert (Hrow' : Forall (fun r => 0 <= r < m) row').
  { unfold row'. apply Forall_map. eapply Forall_impl; [|exact Hrows].
    simpl. intros r Hr. unfold m. lia. }
  assert (Hlen' : length row' = length row) by (unfold row'; apply length_map).
  assert (Hdata : forall data, In data (od_values datas) ->
                               length data = length row).
  { intros data Hin. unfold od_values in Hin. apply in_map_iff in Hin.
    destruct Hin as (p & <- & Hp). rewrite Forall_forall in Hld. now apply Hld. }
  exists {| SparseTileDBTensorGenerator.row_dim :=
              SparseTileDBTensorGenerator.row_dim self;
            SparseTileDBTensorGenerator.col_dim :=
              SparseTileDBTensorGenerator.col_dim self;
            SparseTileDBTensorGenerator.row_shape :=
              SparseTileDBTensorGenerator.row_shape self;
            SparseTileDBTensorGenerator.attr_dtypes :=
              SparseTileDBTensorGenerator.attr_dtypes self;
            SparseTileDBTensorGenerator.query :=
              SparseTileDBTensorGenerator.query self;
            SparseTileDBTensorGenerator.buf_csrs :=
              Some (map build (od_values datas)) |},
         (map build (od_values datas)).
  split; [|split; [reflexivity|split]].
  - unfold SparseTileDBTensorGenerator.read_buffer, bind, query_getitem_sparse,
      SparseTileDBTensorGenerator.pop.
    rewrite Hread, Hrow. unfold ret at 1. rewrite Hcol. unfold ret at 1.
    unfold lift. rewrite Hshape.
    rewrite (map_result_map _ build); [reflexivity|].
    intros data Hin. apply sp_csr_matrix_ok; fold row'; unfold m in *;
      try lia; try assumption.
    + rewrite Hlen'. symmetry. now apply Hdata.
    + rewrite Hlc. symmetry. now apply Hdata.
  - rewrite length_map. unfold od_values. rewrite length_map.
    rewrite <- Hkeys. now rewrite length_map.
  - apply Forall_forall. intros mtx Hin. apply in_map_iff in Hin.
    destruct Hin as (data & <- & Hin). simpl.
    split; [reflexivity|]. split.
    + rewrite length_map, length_seq. unfold m. lia.
    + intros r c.
      rewrite (csr_rows_of_entries (coo_entries data row' col) m r c)
        by (apply coo_entries_rows; exact Hrow').
      rewrite coo_entries_coords
        by (rewrite ?Hlen', ?Hlc; symmetry; now apply Hdata).
      unfold row'. rewrite combine_map_left. split.
      * intros (r0 & -> & H). now replace (r0 - start array_slice
                                            + start array_slice) with r0 by lia.
      * intros H. exists (r + start array_slice). split; [lia | exact H].
Qed.

Lemma sparse_read_buffer_rebases_rows_witness :
  exists self' csrs,
    SparseTileDBTensorGenerator.read_buffer sparse_gen_example (Slice 3 7) []
    = (Ok self',
       [read_event (SparseTileDBTensorGenerator.query sparse_gen_example)
                   (Slice 3 7)])
    /\ SparseTileDBTensorGenerator.buf_csrs self' = Some csrs
    /\ length csrs = 1%nat
    /\ Forall (fun m =>
                 csr_shape m = (4, 3)
                 /\ Z.of_nat (length (csr_rows m)) = 4
                 /\ forall r c,
                     (exists v, In (r, c, v) (rows_entries 0 (csr_rows m)))
                     <-> In (r + 3, c)
                            (combine [3; 4; 5; 6] [0; 1; 2; 0]))
              csrs.
Proof.
  apply (sparse_read_buffer_rebases_rows
           sparse_gen_example (Slice 3 7) []
           [("rows", [3; 4; 5; 6]); ("cols", [0; 1; 2; 0]);
            ("data", [4; 5; 6; 7])]
           [("cols", [0; 1; 2; 0]); ("data", [4; 5; 6; 7])]
           [("data", [4; 5; 6; 7])]
           [3; 4; 5; 6] [0; 1; 2; 0] 3).
  - reflexivity.
  - lia.
  - simpl; lia.
  - reflexivity.
  - reflexivity.
  - reflexivity.
  - reflexivity.
  - reflexivity.
  - repeat constructor.
  - repeat constructor; simpl; lia.
  - repeat constructor; lia.
Defined.

Lemma od_pop_length {A : Type} (key : string) (d rest : OrderedDict A) (x : A) :
  od_pop key d = Some (x, rest) -> length d = S (length rest).
Proof.
  revert rest. induction d as [|[k v] d IH]; simpl; intros rest H;
    [discriminate|].
  destruct (String.eqb k key).
  - injection H as _ <-. reflexivity.
  - destruct (od_pop key d) as [[x' rest']|] eqn:E; [|discriminate].
    injection H as <- <-. simpl. f_equal. now apply IH.
Qed.

Lemma sp_csr_matrix_inv (data row col : list Z) (m n : Z) (mtx : csr_matrix) :
  sp_csr_matrix data row col [m; n] = Ok mtx ->
  0 <= m /\ csr_shape mtx = (m, n) /\ Z.of_nat (length (csr_rows mtx)) = m.
Proof.
  unfold sp_csr_matrix.
  destruct (m <? 0) eqn:E1; [discriminate|]. apply Z.ltb_ge in E1.
  destruct (n <? 0); [discriminate|]. simpl.
  destruct (negb _); [discriminate|].
  destruct (negb _); [discriminate|].
  intros H. injection H as <-. simpl.
  rewrite length_map, length_seq. repeat split; lia.
Qed.

(** What a successful [read_buffer] of the sparse generator has done. *)
Lemma sparse_read_buffer_inv
      (self self' : SparseTileDBTensorGenerator.t) (s : slice) (w w' : World) :
  SparseTileDBTensorGenerator.read_buffer self s w = (Ok self', w') ->
  exists buffer row rest col datas csrs,
    sparse_cells (q_array (SparseTileDBTensorGenerator.query self))
                 (q_attrs (SparseTileDBTensorGenerator.query self)) s
    = Ok buffer
    /\ od_pop (SparseTileDBTensorGenerator.row_dim self) buffer
       = Some (row, rest)
    /\ od_pop (SparseTileDBTensorGenerator.col_dim self) rest
       = Some (col, datas)
    /\ map_result
         (fun data =>
            sp_csr_matrix data (map (fun r => r - start s) row) col
                          ((stop s - start s)
                             :: SparseTileDBTensorGenerator.row_shape self))
         (od_values datas) = Ok csrs
    /\ SparseTileDBTensorGenerator.buf_csrs self' = Some csrs
    /\ SparseTileDBTensorGenerator.row_shape self'
       = SparseTileDBTensorGenerator.row_shape self
    /\ SparseTileDBTensorGenerator.attr_dtypes self'
       = SparseTileDBTensorGenerator.attr_dtypes self
    /\ SparseTileDBTensorGenerator.query self'
       = SparseTileDBTensorGenerator.query self
    /\ w' = w ++ [read_event (SparseTileDBTensorGenerator.query self) s].
Proof.
  unfold SparseTileDBTensorGenerator.read_buffer. intros H.
  apply bind_inv in H. destruct H as (buffer & w1 & Hq & H).
  unfold query_getitem_sparse in Hq. injection Hq as Hq <-.
  apply bind_inv in H. destruct H as ([row rest] & w2 & Hp1 & H).
  unfold SparseTileDBTensorGenerator.pop in Hp1.
  destruct (od_pop _ buffer) as [p1|] eqn:E1; [|discriminate].
  injection Hp1 as -> <-.
  apply bind_inv in H. destruct H as ([col datas] & w3 & Hp2 & H).
  unfold SparseTileDBTensorGenerator.pop in Hp2.
  destruct (od_pop _ rest) as [p2|] eqn:E2; [|discriminate].
  injection Hp2 as -> <-.
  apply bind_inv in H. destruct H as (csrs & w4 & Hm & H).
  unfold lift in Hm. injection Hm as Hm <-.
  injection H as <- <-.
  exists buffer, row, rest, col, datas, csrs. simpl. repeat split; assumption.
Qed.

Lemma combine_map_same {A B C : Type} (f : A -> B) (g : A -> C) (l : list A) :
  combine (map f l) (map g l) = map (fun a => (f a, g a)) l.
Proof. induction l as [|a l IH]; simpl; [reflexivity | now rewrite IH]. Qed.

Lemma tocoo_coords (m : csr_matrix) :
  np_stack_last (coo_row (tocoo m)) (coo_col (tocoo m))
  = map (fun e : entry => [fst (fst e); snd (fst e)])
        (rows_entries 0 (csr_rows m)).
Proof.
  unfold np_stack_last, tocoo. simpl.
  rewrite combine_map_same, map_map. reflexivity.
Qed.

Lemma tocoo_entries_In (m : csr_matrix) (r c v : Z) :
  In ([r; c], v)
     (combine (np_stack_last (coo_row (tocoo m)) (coo_col (tocoo m)))
              (coo_data (tocoo m)))
  <-> In (r, c, v) (rows_entries 0 (csr_rows m)).
Proof.
  rewrite tocoo_coords. unfold tocoo. simpl.
  rewrite combine_map_same, in_map_iff. split.
  - intros ([[r' c'] v'] & H & Hin). simpl in H. injection H as <- <- <-.
    exact Hin.
  - intros H. exists (r, c, v). split; [reflexivity | exact H].
Qed.

(** Row coordinates after row slicing count from the start of the slice. *)
Lemma sliced_rows_entries (rows : list (list (Z * Z))) (a k : nat) (r c v : Z) :
  In (r, c, v) (rows_entries 0 (firstn k (skipn a rows)))
  <-> 0 <= r < Z.of_nat k
      /\ In (r + Z.of_nat a, c, v) (rows_entries 0 rows).
Proof.
  rewrite !rows_entries_In. split.
  - intros (j & row & H1 & H2 & H3).
    assert (Hj : (j < k)%nat).
    { destruct (Nat.ltb_spec j k) as [|Hge]; [assumption|].
      rewrite nth_error_firstn in H1.
      destruct (Nat.ltb_spec j k); [lia | discriminate]. }
    rewrite nth_error_firstn_skipn in H1 by assumption.
    split; [lia|]. exists (a + j)%nat, row.
    split; [exact H1|]. split; [lia | exact H3].
  - intros (Hr & j & row & H1 & H2 & H3).
    exists (Z.to_nat r), row. split; [|split; [lia | exact H3]].
    rewrite nth_error_firstn_skipn by lia.
    replace (a + Z.to_nat r)%nat with j by lia. exact H1.
Qed.

Lemma csr_getitem_inside (m : csr_matrix) (s : slice) :
  0 <= start s -> start s <= stop s -> stop s <= fst (csr_shape m) ->
  csr_getitem m s
  = {| csr_shape := (slice_len s, snd (csr_shape m));
       csr_rows := firstn (Z.to_nat (slice_len s))
                          (skipn (Z.to_nat (start s)) (csr_rows m)) |}.
Proof.
  intros H0 H1 H2. unfold csr_getitem.
  rewrite slice_indices_inside by assumption.
  rewrite Z.min_l by assumption. reflexivity.
Qed.

Lemma nth_error_combine_some {A B : Type} (l : list A) (l' : list B) k a b :
  nth_error l k = Some a -> nth_error l' k = Some b ->
  nth_error (combine l l') k = Some (a, b).
Proof.
  revert l l'. induction k as [|k IH]; intros [|x l] [|y l']; simpl;
    try discriminate.
  - intros [= ->] [= ->]. reflexivity.
  - apply IH.
Qed.

Lemma np_stack_last_shape (a b : list Z) :
  Forall (fun rc => length rc = 2%nat) (np_stack_last a b).
Proof.
  unfold np_stack_last. apply Forall_map, Forall_forall. reflexivity.
Qed.

Lemma tocoo_lengths (m : csr_matrix) :
  length (np_stack_last (coo_row (tocoo m)) (coo_col (tocoo m)))
  = length (coo_data (tocoo m)).
Proof. rewrite tocoo_coords. unfold tocoo. simpl. now rewrite !length_map. Qed.

(** C4.  After a successful [read_buffer] over a two-dimensional sparse array
    whose store answers with one value vector per attribute, [iter_tensors]
    over an extract slice inside the buffer yields one sparse tensor value per
    attribute: the values, a coordinate array with two columns (row, column)
    and as many lines as values, and the dense shape
    [(len(extract_slice), *row_shape)]; the entries are those of the buffered
    matrix in the rows of the slice, with their values, rows counted from the
    slice start. *)
Theorem sparse_iter_tensors_coo
        (self self' : SparseTileDBTensorGenerator.t)
        (read_slice extract_slice : slice) (w w' : World) (ncols : Z) :
  SparseTileDBTensorGenerator.row_shape self = [ncols] ->
  SparseTileDBTensorGenerator.read_buffer self read_slice w = (Ok self', w') ->
  (forall buffer,
      sparse_cells (q_array (SparseTileDBTensorGenerator.query self))
                   (q_attrs (SparseTileDBTensorGenerator.query self)) read_slice
      = Ok buffer ->
      length buffer
      = (2 + length (SparseTileDBTensorGenerator.attr_dtypes self))%nat) ->
  0 <= start extract_slice ->
  start extract_slice <= stop extract_slice ->
  stop extract_slice <= slice_len read_slice ->
  exists csrs tensors,
    SparseTileDBTensorGenerator.buf_csrs self' = Some csrs
    /\ SparseTileDBTensorGenerator.iter_tensors self' extract_slice = Ok tensors
    /\ length tensors = length (SparseTileDBTensorGenerator.attr_dtypes self)
    /\ forall k dtype,
        nth_error (SparseTileDBTensorGenerator.attr_dtypes self) k = Some dtype ->
        exists m data coords,
          nth_error csrs k = Some m
          /\ nth_error tensors k
             = Some (SparseTensor data coords
                       (slice_len extract_slice
                          :: SparseTileDBTensorGenerator.row_shape self) dtype)
          /\ length coords = length data
          /\ Forall (fun rc => length rc = 2%nat) coords
          /\ forall r c v,
              In ([r; c], v) (combine coords data)
              <-> 0 <= r < slice_len extract_slice
                  /\ In (r + start extract_slice, c, v)
                        (rows_entries 0 (csr_rows m)).
Proof.
  intros Hshape Hread Hstore H0 H1 H2.
  apply sparse_read_buffer_inv in Hread.
  destruct Hread as (buffer & row & rest & col & datas & csrs
                     & Hq & Hp1 & Hp2 & Hm & Hbuf & Hrs & Hdt & _ & _).
  rewrite Hshape in Hm.
  assert (Hlen : length csrs
                 = length (SparseTileDBTensorGenerator.attr_dtypes self)).
  { apply map_result_length in Hm. rewrite Hm. unfold od_values.
    rewrite length_map. specialize (Hstore buffer Hq).
    apply od_pop_length in Hp1, Hp2. lia. }
  assert (Hcsr : Forall (fun m => csr_shape m = (slice_len read_slice, ncols))
                        csrs).
  { apply map_result_Forall2 in Hm. clear -Hm.
    induction Hm as [|data m ds ms H _ IH]; constructor; [|exact IH].
    apply sp_csr_matrix_inv in H. apply H. }
  exists csrs.
  exists (map (SparseTileDBTensorGenerator.tensor_of self' extract_slice)
              (combine csrs (SparseTileDBTensorGenerator.attr_dtypes self'))).
  split; [exact Hbuf|]. split.
  { unfold SparseTileDBTensorGenerator.iter_tensors. now rewrite Hbuf. }
  rewrite Hdt. split.
  { rewrite length_map, length_combine. lia. }
  intros k dtype Hk.
  destruct (nth_error csrs k) as [m|] eqn:Em.
  2:{ apply nth_error_None in Em.
      assert (k < length (SparseTileDBTensorGenerator.attr_dtypes self))%nat
        by (apply nth_error_Some; congruence).
      lia. }
  assert (Hm' : csr_shape m = (slice_len read_slice, ncols)).
  { rewrite Forall_forall in Hcsr. apply Hcsr. eapply nth_error_In; exact Em. }
  assert (Hget : csr_getitem m extract_slice
                 = {| csr_shape := (slice_len extract_slice, ncols);
                      csr_rows :=
                        firstn (Z.to_nat (slice_len extract_slice))
                               (skipn (Z.to_nat (start extract_slice))
                                      (csr_rows m)) |}).
  { rewrite csr_getitem_inside; rewrite ?Hm'; simpl; try assumption.
    reflexivity. }
  eexists m, _, _. split; [reflexivity|]. split.
  { rewrite nth_error_map.
    rewrite (nth_error_combine_some _ _ _ _ _ Em Hk). cbn [option_map].
    unfold SparseTileDBTensorGenerator.tensor_of.
    rewrite Hget, Hrs. cbn [csr_shape fst]. reflexivity. }
  split; [apply tocoo_lengths|]. split; [apply np_stack_last_shape|].
  intros r c v. rewrite tocoo_entries_In. simpl.
  rewrite sliced_rows_entries.
  rewrite !Z2Nat.id by (unfold slice_len; lia). reflexivity.
Qed.

Lemma sparse_iter_tensors_coo_witness :
  exists csrs tensors,
    SparseTileDBTensorGenerator.buf_csrs sparse_gen_example_read = Some csrs
    /\ SparseTileDBTensorGenerator.iter_tensors sparse_gen_example_read
                                                (Slice 1 3) = Ok tensors
    /\ length tensors = 1%nat
    /\ forall k dtype,
        nth_error ["float32"] k = Some dtype ->
        exists m data coords,
          nth_error csrs k = Some m
          /\ nth_error tensors k
             = Some (SparseTensor data coords [2; 3] dtype)
          /\ length coords = length data
          /\ Forall (fun rc => length rc = 2%nat) coords
          /\ forall r c v,
              In ([r; c], v) (combine coords data)
              <-> 0 <= r < 2
                  /\ In (r + 1, c, v) (rows_entries 0 (csr_rows m)).
Proof.
  apply (sparse_iter_tensors_coo
           sparse_gen_example sparse_gen_example_read
           (Slice 3 7) (Slice 1 3) []
           [read_event (SparseTileDBTensorGenerator.query sparse_gen_example)
                       (Slice 3 7)] 3).
  - reflexivity.
  - reflexivity.
  - intros buffer H. vm_compute in H. injection H as <-. reflexivity.
  - simpl; lia.
  - simpl; lia.
  - unfold slice_len; simpl; lia.
Defined.

(** ** The sequencer: the call and the first request *)

Lemma dense_generator_constructed (array : Array) (attrs : list string)
      (w : World) :
  sparse (schema array) = false ->
  get_buffer_size_generator array attrs w
  = (Ok (NumpyGen {| TileDBNumpyGenerator.query := array_query array attrs;
                     TileDBNumpyGenerator.buf_arrays := None |}), w).
Proof.
  intros H. unfold get_buffer_size_generator. rewrite H. reflexivity.
Qed.

Lemma dense_prologue (iter_batches : Z -> Z -> Z -> Z -> list Batch)
      (a : Args) (w : World) (nrows : Z) (row_shape : list Z) :
  sparse (schema (x_array a)) = false ->
  sparse (schema (y_array a)) = false ->
  array_shape (x_array a) = nrows :: row_shape ->
  prologue iter_batches a w
  = (Ok (NumpyGen {| TileDBNumpyGenerator.query :=
                       array_query (x_array a) (x_attrs a);
                     TileDBNumpyGenerator.buf_arrays := None |},
         NumpyGen {| TileDBNumpyGenerator.query :=
                       array_query (y_array a) (y_attrs a);
                     TileDBNumpyGenerator.buf_arrays := None |},
         iter_batches (x_buffer_size a) (y_buffer_size a) (start_offset a)
                      (if stop_offset a =? 0 then nrows else stop_offset a)),
     w).
Proof.
  intros Hx Hy Hs. unfold prologue.
  rewrite (bind_ok _ _ _ _ _ (dense_generator_constructed _ _ w Hx)).
  rewrite (bind_ok _ _ _ _ _ (dense_generator_constructed _ _ w Hy)).
  rewrite Hs. unfold bind, lift, ret. simpl.
  destruct (stop_offset a =? 0); reflexivity.
Qed.

(** C10.  The call of [tensor_generator] does nothing: whatever the
    arguments it returns a generator object, raises nothing and reads nothing.
    The body starts at the first request of a batch: it is then that a sparse
    feature array that is not two-dimensional raises [NotImplementedError]
    (before any read), and then that, for dense arrays, the generators are
    constructed and a [stop_offset] of 0 is replaced by [x_array.shape[0]]
    before the first window is run. *)
Theorem tensor_generator_call_is_lazy
        (iter_batches : Z -> Z -> Z -> Z -> list Batch) (a : Args) (w : World) :
  tensor_generator a w = (Ok (Created a), w)
  /\ (sparse (schema (x_array a)) = true ->
      ndim (schema (x_array a)) <> 2 ->
      gen_next iter_batches (Created a) w
      = (Raised (NotImplementedError
                   "Only 2D sparse tensors are currently supported"),
         Closed, w))
  /\ (forall nrows row_shape,
         sparse (schema (x_array a)) = false ->
         sparse (schema (y_array a)) = false ->
         array_shape (x_array a) = nrows :: row_shape ->
         gen_next iter_batches (Created a) w
         = resume
             (NumpyGen {| TileDBNumpyGenerator.query :=
                            array_query (x_array a) (x_attrs a);
                          TileDBNumpyGenerator.buf_arrays := None |})
             (NumpyGen {| TileDBNumpyGenerator.query :=
                            array_query (y_array a) (y_attrs a);
                          TileDBNumpyGenerator.buf_arrays := None |})
             (iter_batches (x_buffer_size a) (y_buffer_size a) (start_offset a)
                           (if stop_offset a =? 0 then nrows
                            else stop_offset a))
             w).
Proof.
  split; [reflexivity|]. split.
  - intros Hs Hn. unfold gen_next, prologue, get_buffer_size_generator.
    rewrite Hs.
    rewrite (bind_raise _ _ w w _
               (bind_raise _ _ w w _ (sparse_init_unsupported _ _ w Hn))).
    reflexivity.
  - intros nrows row_shape Hx Hy Hs. unfold gen_next.
    rewrite (dense_prologue iter_batches a w nrows row_shape Hx Hy Hs).
    reflexivity.
Qed.

Lemma tensor_generator_call_is_lazy_witness :
  (tensor_generator
     (example_args (sparse_example "x" (dims3 9)) (dense_example "y" 9) 4 3) []
   = (Ok (Created (example_args (sparse_example "x" (dims3 9))
                                (dense_example "y" 9) 4 3)), [])
   /\ gen_next iter_batches_windows
               (Created (example_args (sparse_example "x" (dims3 9))
                                      (dense_example "y" 9) 4 3)) []
      = (Raised (NotImplementedError
                   "Only 2D sparse tensors are currently supported"),
         Closed, []))
  /\ gen_next iter_batches_windows
              (Created (example_args (dense_example "x" 9)
                                     (dense_example "y" 9) 4 3)) []
     = resume
         (NumpyGen {| TileDBNumpyGenerator.query :=
                        array_query (dense_example "x" 9) ["data"];
                      TileDBNumpyGenerator.buf_arrays := None |})
         (NumpyGen {| TileDBNumpyGenerator.query :=
                        array_query (dense_example "y" 9) ["data"];
                      TileDBNumpyGenerator.buf_arrays := None |})
         (iter_batches_windows 4 3 0 9) [].
Proof.
  split.
  - destruct (tensor_generator_call_is_lazy
                iter_batches_windows
                (example_args (sparse_example "x" (dims3 9))
                              (dense_example "y" 9) 4 3) [])
      as (Hcall & Hraise & _).
    split; [exact Hcall|].
    apply Hraise.
    + reflexivity.
    + vm_compute. discriminate.
  - destruct (tensor_generator_call_is_lazy
                iter_batches_windows
                (example_args (dense_example "x" 9) (dense_example "y" 9) 4 3)
                [])
      as (_ & _ & Hdense).
    apply (Hdense 9 [2]); reflexivity.
Defined.

(** C1, as stated, fails.  With 108 feature rows and 107 label rows the call
    returns a generator object, and the first request of a batch reads rows
    0 to 49 of both arrays and yields a batch: no error is raised, neither at
    the call nor before the reads. *)
Lemma row_count_mismatch_is_not_detected :
  getitem0 (array_shape (x_array mismatch_args)) = Ok 108
  /\ getitem0 (array_shape (y_array mismatch_args)) = Ok 107
  /\ tensor_generator mismatch_args [] = (Ok (Created mismatch_args), [])
  /\ exists batch g,
      gen_next iter_batches_windows (Created mismatch_args) []
      = (Yielded batch, g,
         [ {| ev_uri := "x"; ev_attrs := ["data"]; ev_slice := Slice 0 50 |};
           {| ev_uri := "y"; ev_attrs := ["data"]; ev_slice := Slice 0 50 |} ]).
Proof.
  split; [reflexivity|]. split; [reflexivity|]. split; [reflexivity|].
  eexists _, _. vm_compute. reflexivity.
Qed.

(** C1, amended.  [tensor_generator] compares no row counts.  For every pair
    of arrays the call returns a generator object, raises nothing and reads
    nothing; and at the first request, for dense arrays and a [stop_offset]
    of 0, both generators are constructed and the windows are those of
    [iter_batches] up to the number of rows of the feature array, the number
    of rows of the label array not being consulted. *)
Theorem tensor_generator_checks_no_row_count
        (iter_batches : Z -> Z -> Z -> Z -> list Batch) (a : Args) (w : World)
        (x_rows : Z) (x_row_shape : list Z) :
  sparse (schema (x_array a)) = false ->
  sparse (schema (y_array a)) = false ->
  array_shape (x_array a) = x_rows :: x_row_shape ->
  stop_offset a = 0 ->
  tensor_generator a w = (Ok (Created a), w)
  /\ prologue iter_batches a w
     = (Ok (NumpyGen {| TileDBNumpyGenerator.query :=
                          array_query (x_array a) (x_attrs a);
                        TileDBNumpyGenerator.buf_arrays := None |},
            NumpyGen {| TileDBNumpyGenerator.query :=
                          array_query (y_array a) (y_attrs a);
                        TileDBNumpyGenerator.buf_arrays := None |},
            iter_batches (x_buffer_size a) (y_buffer_size a) (start_offset a)
                         x_rows),
        w).
Proof.
  intros Hx Hy Hs H0. split; [reflexivity|].
  rewrite (dense_prologue iter_batches a w x_rows x_row_shape Hx Hy Hs).
  rewrite H0. reflexivity.
Qed.

Lemma tensor_generator_checks_no_row_count_witness :
  tensor_generator mismatch_args [] = (Ok (Created mismatch_args), [])
  /\ prologue iter_batches_windows mismatch_args []
     = (Ok (NumpyGen {| TileDBNumpyGenerator.query :=
                          array_query (dense_example "x" 108) ["data"];
                        TileDBNumpyGenerator.buf_arrays := None |},
            NumpyGen {| TileDBNumpyGenerator.query :=
                          array_query (dense_example "y" 107) ["data"];
                        TileDBNumpyGenerator.buf_arrays := None |},
            iter_batches_windows 50 50 0 108),
        []).
Proof.
  apply (tensor_generator_checks_no_row_count
           iter_batches_windows mismatch_args [] 108 [2]);
    reflexivity.
Defined.

(** ** The sequencer: results do not depend on earlier reads *)

Section WorldIndependence.

Lemma wi_ret {A : Type} (a : A) : world_independent (ret a).
Proof. intros w1 w2. reflexivity. Qed.

Lemma wi_raise {A : Type} (e : Exception) : world_independent (@raise A e).
Proof. intros w1 w2. reflexivity. Qed.

Lemma wi_lift {A : Type} (r : Result A) : world_independent (lift r).
Proof. intros w1 w2. reflexivity. Qed.

Lemma wi_bind {A B : Type} (c : M A) (k : A -> M B) :
  world_independent c -> (forall a, world_independent (k a)) ->
  world_independent (bind c k).
Proof.
  intros Hc Hk w1 w2. unfold bind. specialize (Hc w1 w2).
  destruct (c w1) as [[a1|e1] w1'], (c w2) as [[a2|e2] w2']; simpl in Hc;
    try discriminate.
  - injection Hc as ->. apply Hk.
  - injection Hc as ->. reflexivity.
Qed.

Lemma wi_query_dense (q : Query) (s : slice) :
  world_independent (query_getitem_dense q s).
Proof. intros w1 w2. reflexivity. Qed.

Lemma wi_query_sparse (q : Query) (s : slice) :
  world_independent (query_getitem_sparse q s).
Proof. intros w1 w2. reflexivity. Qed.

Lemma wi_read_buffer (gen : TileDBTensorGenerator) (s : slice) :
  world_independent (read_buffer gen s).
Proof.
  destruct gen as [g|g]; simpl.
  - apply wi_bind; [|intros; apply wi_ret].
    unfold TileDBNumpyGenerator.read_buffer.
    apply wi_bind; [apply wi_query_dense | intros; apply wi_ret].
  - apply wi_bind; [|intros; apply wi_ret].
    unfold SparseTileDBTensorGenerator.read_buffer.
    apply wi_bind; [apply wi_query_sparse|]. intros buffer.
    apply wi_bind.
    { unfold SparseTileDBTensorGenerator.pop.
      destruct (od_pop _ buffer); [apply wi_ret | apply wi_raise]. }
    intros [row rest]. apply wi_bind.
    { unfold SparseTileDBTensorGenerator.pop.
      destruct (od_pop _ rest); [apply wi_ret | apply wi_raise]. }
    intros [col datas].
    apply wi_bind; [apply wi_lift | intros; apply wi_ret].
Qed.

Lemma wi_read_if (gen : TileDBTensorGenerator) (s : option slice) :
  world_independent (read_if gen s).
Proof. destruct s; [apply wi_read_buffer | apply wi_ret]. Qed.

Lemma wi_loop_body (x_gen y_gen : TileDBTensorGenerator) (batch : Batch) :
  world_independent (loop_body x_gen y_gen batch).
Proof.
  unfold loop_body.
  apply wi_bind; [apply wi_read_if | intros x'].
  apply wi_bind; [apply wi_read_if | intros y'].
  apply wi_bind; [apply wi_lift | intros xs].
  apply wi_bind; [apply wi_lift | intros ys].
  apply wi_ret.
Qed.

Lemma wi_get_buffer_size_generator (array : Array) (attrs : list string) :
  world_independent (get_buffer_size_generator array attrs).
Proof.
  unfold get_buffer_size_generator. destruct (sparse (schema array)).
  - apply wi_bind; [|intros; apply wi_ret].
    unfold SparseTileDBTensorGenerator.init.
    destruct (negb _); [apply wi_raise|].
    apply wi_bind; [apply wi_lift | intros d0].
    apply wi_bind; [apply wi_lift | intros d1].
    apply wi_bind; [apply wi_lift | intros dtypes]. apply wi_ret.
  - apply wi_bind; [apply wi_ret | intros; apply wi_ret].
Qed.

Lemma wi_prologue (iter_batches : Z -> Z -> Z -> Z -> list Batch) (a : Args) :
  world_independent (prologue iter_batches a).
Proof.
  unfold prologue.
  apply wi_bind; [apply wi_get_buffer_size_generator | intros x_gen].
  apply wi_bind; [apply wi_get_buffer_size_generator | intros y_gen].
  apply wi_bind; [|intros; apply wi_ret].
  destruct (stop_offset a =? 0); [apply wi_lift | apply wi_ret].
Qed.

Lemma run_loop_world (x_gen y_gen : TileDBTensorGenerator)
      (batches : list Batch) (w1 w2 : World) :
  fst (run_loop x_gen y_gen batches w1) = fst (run_loop x_gen y_gen batches w2).
Proof.
  revert x_gen y_gen w1 w2.
  induction batches as [|batch rest IH]; intros x_gen y_gen w1 w2; simpl;
    [reflexivity|].
  pose proof (wi_loop_body x_gen y_gen batch w1 w2) as Hb.
  destruct (loop_body x_gen y_gen batch w1) as [[[[x1 y1] [xs1 ys1]]|e1] w1'],
           (loop_body x_gen y_gen batch w2) as [[[[x2 y2] [xs2 ys2]]|e2] w2'];
    simpl in Hb; try discriminate.
  - injection Hb as -> -> -> ->.
    specialize (IH x2 y2 w1' w2').
    destruct (run_loop x2 y2 rest w1') as [[steps1 err1] w1''],
             (run_loop x2 y2 rest w2') as [[steps2 err2] w2''].
    simpl in IH. injection IH as -> ->. reflexivity.
  - injection Hb as ->. reflexivity.
Qed.

End WorldIndependence.

(** C8.  Two traversals by separate calls of [tensor_generator] with the same
    arguments give the same steps (the same number of batches, the same
    windows and the same tensors in the same order) and end the same way,
    whatever was read before each of them; in particular the second of two
    traversals in a row repeats the first. *)
Theorem tensor_generator_two_runs_agree
        (iter_batches : Z -> Z -> Z -> Z -> list Batch) (a : Args)
        (w1 w2 : World) :
  fst (traverse iter_batches a w1) = fst (traverse iter_batches a w2)
  /\ fst (traverse iter_batches a (snd (traverse iter_batches a w1)))
     = fst (traverse iter_batches a w1).
Proof.
  assert (H : forall u v,
             fst (traverse iter_batches a u) = fst (traverse iter_batches a v)).
  { intros u v. unfold traverse, tensor_generator, ret, run.
    pose proof (wi_prologue iter_batches a u v) as Hp.
    destruct (prologue iter_batches a u) as [[[[x1 y1] bs1]|e1] u'],
             (prologue iter_batches a v) as [[[[x2 y2] bs2]|e2] v'];
      simpl in Hp; try discriminate.
    - injection Hp as -> -> ->. apply run_loop_world.
    - injection Hp as ->. reflexivity. }
  split; apply H.
Qed.

(** ** The sequencer: what the steps yield *)

(** [run] is iteration of [gen_next]: a yield is the tuple of the first step
    and leaves the generator that runs the remaining steps. *)
Lemma run_gen_next (iter_batches : Z -> Z -> Z -> Z -> list Batch)
      (g : Generator) (w : World) :
  match gen_next iter_batches g w with
  | (Yielded batch, g', w1) =>
      exists s steps err w2,
        run iter_batches g w = (s :: steps, err, w2)
        /\ batch = step_yield s
        /\ run iter_batches g' w1 = (steps, err, w2)
  | (StopIteration, _, w1) => run iter_batches g w = ([], None, w1)
  | (Raised e, _, w1) => run iter_batches g w = ([], Some e, w1)
  end.
Proof.
  assert (Hloop : forall x_gen y_gen batches u,
             match resume x_gen y_gen batches u with
             | (Yielded batch, g', w1) =>
                 exists s steps err w2,
                   run_loop x_gen y_gen batches u = (s :: steps, err, w2)
                   /\ batch = step_yield s
                   /\ run iter_batches g' w1 = (steps, err, w2)
             | (StopIteration, _, w1) =>
                 run_loop x_gen y_gen batches u = ([], None, w1)
             | (Raised e, _, w1) =>
                 run_loop x_gen y_gen batches u = ([], Some e, w1)
             end).
  { intros x_gen y_gen [|batch rest] u; simpl; [reflexivity|].
    destruct (loop_body x_gen y_gen batch u)
      as [[[[x' y'] [xs ys]]|e] u']; [|reflexivity].
    destruct (run_loop x' y' rest u') as [[steps err] w2] eqn:E.
    eexists _, steps, err, w2. split; [reflexivity|].
    split; [reflexivity | exact E]. }
  destruct g as [a|x_gen y_gen rest|]; simpl.
  - destruct (prologue iter_batches a w) as [[[[x_gen y_gen] batches]|e] w'];
      [apply Hloop | reflexivity].
  - apply Hloop.
  - reflexivity.
Qed.

Lemma loop_body_inv (x_gen y_gen x_gen' y_gen' : TileDBTensorGenerator)
      (batch : Batch) (w w' : World) (xs ys : list Tensor) :
  loop_body x_gen y_gen batch w = (Ok (x_gen', y_gen', (xs, ys)), w') ->
  exists w1,
    read_if x_gen (x_read_slice batch) w = (Ok x_gen', w1)
    /\ read_if y_gen (y_read_slice batch) w1 = (Ok y_gen', w')
    /\ iter_tensors x_gen' (x_buffer_slice batch) = Ok xs
    /\ iter_tensors y_gen' (y_buffer_slice batch) = Ok ys.
Proof.
  unfold loop_body. intros H.
  apply bind_inv in H. destruct H as (x1 & w1 & Hx & H).
  apply bind_inv in H. destruct H as (y1 & w2 & Hy & H).
  apply bind_inv in H. destruct H as (xs1 & w3 & Hxs & H).
  apply bind_inv in H. destruct H as (ys1 & w4 & Hys & H).
  unfold lift in Hxs, Hys. injection Hxs as Hxs <-. injection Hys as Hys <-.
  injection H as <- <- <- <- <-.
  exists w1. repeat split; assumption.
Qed.

(** The steps of a run go through the windows in order, and the tensors of a
    step are those of [iter_tensors] over its two extract slices. *)
Lemma run_loop_steps (x_gen y_gen : TileDBTensorGenerator)
      (batches : list Batch) (w w' : World) steps err :
  run_loop x_gen y_gen batches w = (steps, err, w') ->
  map step_batch steps = firstn (length steps) batches
  /\ Forall (fun s =>
               exists x_gen' y_gen',
                 iter_tensors x_gen' (x_buffer_slice (step_batch s))
                 = Ok (step_x s)
                 /\ iter_tensors y_gen' (y_buffer_slice (step_batch s))
                    = Ok (step_y s)) steps.
Proof.
  revert x_gen y_gen w steps err w'.
  induction batches as [|batch rest IH];
    intros x_gen y_gen w steps err w' H; simpl in H.
  - injection H as <- _ _. split; [reflexivity | constructor].
  - destruct (loop_body x_gen y_gen batch w)
      as [[[[x' y'] [xs ys]]|e] w1] eqn:Eb.
    + destruct (run_loop x' y' rest w1) as [[steps1 err1] w2] eqn:Er.
      injection H as <- _ _.
      destruct (IH _ _ _ _ _ _ Er) as [Hm Hf].
      apply loop_body_inv in Eb. destruct Eb as (w0 & _ & _ & Hxs & Hys).
      split.
      * simpl. now rewrite Hm.
      * constructor; [|exact Hf]. simpl. now exists x', y'.
    + injection H as <- _ _. split; [reflexivity | constructor].
Qed.

Lemma sparse_iter_tensors_rows (self : SparseTileDBTensorGenerator.t)
      (s : slice) (tensors : list Tensor) :
  0 <= start s -> 0 <= stop s ->
  SparseTileDBTensorGenerator.iter_tensors self s = Ok tensors ->
  Forall (rows_rebased (slice_len s)) tensors.
Proof.
  intros H0 H1. unfold SparseTileDBTensorGenerator.iter_tensors.
  destruct (SparseTileDBTensorGenerator.buf_csrs self) as [csrs|];
    [|discriminate].
  intros H. injection H as <-.
  apply Forall_map, Forall_forall. intros [m dtype] _.
  unfold SparseTileDBTensorGenerator.tensor_of, rows_rebased.
  intros rc Hin. rewrite tocoo_coords in Hin. apply in_map_iff in Hin.
  destruct Hin as ([[r c] v] & <- & Hin). simpl.
  exists r, c. split; [reflexivity|].
  apply rows_entries_row_bound in Hin.
  unfold csr_getitem, slice_indices, clamp_index in Hin.
  destruct (start s <? 0) eqn:Ea; [apply Z.ltb_lt in Ea; lia|].
  destruct (stop s <? 0) eqn:Eb; [apply Z.ltb_lt in Eb; lia|].
  simpl in Hin. rewrite length_firstn in Hin. unfold slice_len. lia.
Qed.

Lemma iter_tensors_rows (gen : TileDBTensorGenerator) (s : slice)
      (tensors : list Tensor) :
  0 <= start s -> 0 <= stop s ->
  iter_tensors gen s = Ok tensors ->
  Forall (rows_rebased (slice_len s)) tensors.
Proof.
  intros H0 H1. destruct gen as [g|g]; simpl.
  - unfold TileDBNumpyGenerator.iter_tensors.
    destruct (TileDBNumpyGenerator.buf_arrays g); [|discriminate].
    intros H. injection H as <-. apply Forall_map, Forall_forall.
    intros b _. exact I.
  - now apply sparse_iter_tensors_rows.
Qed.

(** C3.  In a run of the sequencer, step [k] goes with the k-th window of
    [iter_batches], and in that step every coordinate line of every sparse
    tensor is a (row, column) pair whose row [r] satisfies
    [0 <= r < len(extract_slice)], for the extract slice of its stream in that
    window (an extract slice has bounds that are not negative). *)
Theorem sparse_rows_rebased_at_every_step
        (iter_batches : Z -> Z -> Z -> Z -> list Batch) (a : Args) (w : World)
        (k : nat) (s : Step) :
  nth_error (fst (fst (run iter_batches (Created a) w))) k = Some s ->
  (exists x_gen y_gen batches w0,
      prologue iter_batches a w = (Ok (x_gen, y_gen, batches), w0)
      /\ nth_error batches k = Some (step_batch s))
  /\ (0 <= start (x_buffer_slice (step_batch s)) ->
      0 <= stop (x_buffer_slice (step_batch s)) ->
      Forall (rows_rebased (slice_len (x_buffer_slice (step_batch s))))
             (step_x s))
  /\ (0 <= start (y_buffer_slice (step_batch s)) ->
      0 <= stop (y_buffer_slice (step_batch s)) ->
      Forall (rows_rebased (slice_len (y_buffer_slice (step_batch s))))
             (step_y s)).
Proof.
  unfold run.
  destruct (prologue iter_batches a w) as [[[[x_gen y_gen] batches]|e] w0];
    [|destruct k; discriminate].
  destruct (run_loop x_gen y_gen batches w0) as [[steps err] w'] eqn:Er.
  simpl. intros Hk.
  destruct (run_loop_steps _ _ _ _ _ _ _ Er) as [Hm Hf].
  rewrite Forall_forall in Hf.
  destruct (Hf s (nth_error_In _ _ Hk)) as (x' & y' & Hxs & Hys).
  split; [|split].
  - exists x_gen, y_gen, batches, w0. split; [reflexivity|].
    assert (Hlt : (k < length steps)%nat)
      by (apply nth_error_Some; congruence).
    assert (Hb : nth_error (map step_batch steps) k = Some (step_batch s))
      by (rewrite nth_error_map, Hk; reflexivity).
    rewrite Hm, nth_error_firstn in Hb.
    destruct (Nat.ltb_spec k (length steps)); [exact Hb | lia].
  - intros H0 H1. eapply iter_tensors_rows; eassumption.
  - intros H0 H1. eapply iter_tensors_rows; eassumption.
Qed.

Lemma sparse_rows_rebased_at_every_step_witness :
  (exists x_gen y_gen batches w0,
      prologue iter_batches_windows
               (example_args (sparse_example "x" (dims2 7))
                             (dense_example "y" 7) 4 3) []
      = (Ok (x_gen, y_gen, batches), w0)
      /\ nth_error batches 2
         = Some {| x_read_slice := Some (Slice 4 7); y_read_slice := None;
                   x_buffer_slice := Slice 0 2;
                   y_buffer_slice := Slice 1 3 |})
  /\ (0 <= 0 -> 0 <= 2 ->
      Forall (rows_rebased 2)
             [SparseTensor [5; 6] [[0; 1]; [1; 2]] [2; 3] "float32"])
  /\ (0 <= 1 -> 0 <= 3 ->
      Forall (rows_rebased 2) [DenseTensor [[8; 9]; [10; 11]]]).
Proof.
  apply (sparse_rows_rebased_at_every_step
           iter_batches_windows
           (example_args (sparse_example "x" (dims2 7)) (dense_example "y" 7)
                         4 3)
           [] 2
           {| step_batch :=
                {| x_read_slice := Some (Slice 4 7); y_read_slice := None;
                   x_buffer_slice := Slice 0 2; y_buffer_slice := Slice 1 3 |};
              step_x := [SparseTensor [5; 6] [[0; 1]; [1; 2]] [2; 3] "float32"];
              step_y := [DenseTensor [[8; 9]; [10; 11]]] |}).
  vm_compute. reflexivity.
Defined.

(** * Further properties *)

(** ** Reads and buffers *)

(** Whatever its result, [read_buffer] reads the store exactly once; when it
    returns, the generator still reads through the same query. *)
Lemma read_buffer_log (gen : TileDBTensorGenerator) (s : slice) (w : World) :
  snd (read_buffer gen s w) = w ++ [read_event (gen_query gen) s]
  /\ forall gen', fst (read_buffer gen s w) = Ok gen' ->
                  gen_query gen' = gen_query gen.
Proof.
  destruct gen as [g|g]; simpl.
  - unfold bind, TileDBNumpyGenerator.read_buffer, bind, query_getitem_dense.
    destruct (dense_cells _ _ s) as [buffer|e]; simpl.
    + split; [reflexivity|]. intros gen' H. injection H as <-. reflexivity.
    + split; [reflexivity | discriminate].
  - unfold bind, SparseTileDBTensorGenerator.read_buffer, bind,
      query_getitem_sparse, SparseTileDBTensorGenerator.pop.
    destruct (sparse_cells _ _ s) as [buffer|e]; simpl;
      [|split; [reflexivity | discriminate]].
    destruct (od_pop _ buffer) as [[row rest]|]; simpl;
      [|split; [reflexivity | discriminate]].
    destruct (od_pop _ rest) as [[col datas]|]; simpl;
      [|split; [reflexivity | discriminate]].
    unfold lift. destruct (map_result _ (od_values datas)) as [csrs|e]; simpl.
    + split; [reflexivity|]. intros gen' H. injection H as <-. reflexivity.
    + split; [reflexivity | discriminate].
Qed.

Lemma read_if_log (gen : TileDBTensorGenerator) (s : option slice) (w : World) :
  snd (read_if gen s w) = w ++ slice_reads (gen_query gen) s
  /\ forall gen', fst (read_if gen s w) = Ok gen' ->
                  gen_query gen' = gen_query gen.
Proof.
  destruct s as [s|]; simpl.
  - apply read_buffer_log.
  - rewrite app_nil_r. split; [reflexivity|].
    intros gen' H. injection H as <-. reflexivity.
Qed.

(** X1.  A second [read_buffer] replaces the buffer of the first: the
    generator it leaves is the one [read_buffer] of the second slice alone
    would have left (or it fails the same way), and the store has been read
    twice, for the first slice and then for the second. *)
Theorem read_buffer_replaces_buffer
        (gen gen1 : TileDBTensorGenerator) (s1 s2 : slice) (w w1 : World) :
  read_buffer gen s1 w = (Ok gen1, w1) ->
  fst (read_buffer gen1 s2 w1) = fst (read_buffer gen s2 w)
  /\ snd (read_buffer gen1 s2 w1)
     = w ++ [read_event (gen_query gen) s1; read_event (gen_query gen) s2].
Proof.
  intros H. split.
  - rewrite (wi_read_buffer gen1 s2 w1 w).
    destruct gen as [g|g]; simpl in H.
    + apply bind_inv in H. destruct H as (g' & w2 & Hrb & Hret).
      injection Hret as <- _.
      unfold TileDBNumpyGenerator.read_buffer in Hrb.
      apply bind_inv in Hrb. destruct Hrb as (buffer & w3 & _ & Hret).
      injection Hret as <- _. reflexivity.
    + apply bind_inv in H. destruct H as (g' & w2 & Hrb & Hret).
      injection Hret as <- _.
      unfold SparseTileDBTensorGenerator.read_buffer in Hrb.
      apply bind_inv in Hrb. destruct Hrb as (buffer & w3 & _ & Hrb).
      apply bind_inv in Hrb. destruct Hrb as ([row rest] & w4 & _ & Hrb).
      apply bind_inv in Hrb. destruct Hrb as ([col datas] & w5 & _ & Hrb).
      apply bind_inv in Hrb. destruct Hrb as (csrs & w6 & _ & Hret).
      injection Hret as <- _. reflexivity.
  - destruct (read_buffer_log gen s1 w) as [Hw Hq].
    rewrite H in Hw, Hq. simpl in Hw. subst w1.
    rewrite (proj1 (read_buffer_log gen1 s2 _)).
    rewrite (Hq gen1 eq_refl), <- app_assoc. reflexivity.
Qed.

Lemma read_buffer_replaces_buffer_witness :
  fst (read_buffer (SparseGen sparse_gen_example_read) (Slice 0 2)
                   [read_event (SparseTileDBTensorGenerator.query
                                  sparse_gen_example) (Slice 3 7)])
  = fst (read_buffer (SparseGen sparse_gen_example) (Slice 0 2) [])
  /\ snd (read_buffer (SparseGen sparse_gen_example_read) (Slice 0 2)
                      [read_event (SparseTileDBTensorGenerator.query
                                     sparse_gen_example) (Slice 3 7)])
     = [] ++ [read_event (gen_query (SparseGen sparse_gen_example)) (Slice 3 7);
              read_event (gen_query (SparseGen sparse_gen_example)) (Slice 0 2)].
Proof.
  apply (read_buffer_replaces_buffer
           (SparseGen sparse_gen_example) (SparseGen sparse_gen_example_read)
           (Slice 3 7) (Slice 0 2) []).
  reflexivity.
Defined.

(** X2.  A read that the store refuses ends the traversal: when the window
    asks for a read of the feature array and the store raises [e], the
    request raises [e] itself, the label array is not read in that step, the
    generator object is closed, and a further request gives [StopIteration]
    without reading. *)
Theorem store_failure_closes_generator
        (iter_batches : Z -> Z -> Z -> Z -> list Batch)
        (x_gen y_gen : TileDBTensorGenerator) (batch : Batch)
        (rest : list Batch) (w : World) (s : slice) (e : Exception) :
  x_read_slice batch = Some s ->
  store_read_fails x_gen s e ->
  gen_next iter_batches (Suspended x_gen y_gen (batch :: rest)) w
  = (Raised e, Closed, w ++ [read_event (gen_query x_gen) s])
  /\ gen_next iter_batches Closed (w ++ [read_event (gen_query x_gen) s])
     = (StopIteration, Closed, w ++ [read_event (gen_query x_gen) s]).
Proof.
  intros Hs Hfail. split; [|reflexivity].
  assert (Hrb : read_buffer x_gen s w
                = (Raise e, w ++ [read_event (gen_query x_gen) s])).
  { destruct x_gen as [g|g]; simpl in *.
    - unfold bind, TileDBNumpyGenerator.read_buffer, bind,
        query_getitem_dense. rewrite Hfail. reflexivity.
    - unfold bind, SparseTileDBTensorGenerator.read_buffer, bind,
        query_getitem_sparse. rewrite Hfail. reflexivity. }
  simpl. unfold loop_body. rewrite Hs. simpl.
  rewrite (bind_raise _ _ _ _ _ Hrb). reflexivity.
Qed.

Lemma store_failure_closes_generator_witness :
  gen_next iter_batches_windows
           (Suspended
              (NumpyGen {| TileDBNumpyGenerator.query :=
                             array_query (failing_example "x") ["data"];
                           TileDBNumpyGenerator.buf_arrays := None |})
              (NumpyGen {| TileDBNumpyGenerator.query :=
                             array_query (dense_example "y" 9) ["data"];
                           TileDBNumpyGenerator.buf_arrays := None |})
              [ {| x_read_slice := Some (Slice 0 4);
                   y_read_slice := Some (Slice 0 3);
                   x_buffer_slice := Slice 0 3;
                   y_buffer_slice := Slice 0 3 |} ]) []
  = (Raised (TileDBError "read failed"), Closed,
     [ {| ev_uri := "x"; ev_attrs := ["data"]; ev_slice := Slice 0 4 |} ])
  /\ gen_next iter_batches_windows Closed
              [ {| ev_uri := "x"; ev_attrs := ["data"];
                   ev_slice := Slice 0 4 |} ]
     = (StopIteration, Closed,
        [ {| ev_uri := "x"; ev_attrs := ["data"]; ev_slice := Slice 0 4 |} ]).
Proof.
  exact (store_failure_closes_generator
           iter_batches_windows
           (NumpyGen {| TileDBNumpyGenerator.query :=
                          array_query (failing_example "x") ["data"];
                        TileDBNumpyGenerator.buf_arrays := None |})
           (NumpyGen {| TileDBNumpyGenerator.query :=
                          array_query (dense_example "y" 9) ["data"];
                        TileDBNumpyGenerator.buf_arrays := None |})
           {| x_read_slice := Some (Slice 0 4);
              y_read_slice := Some (Slice 0 3);
              x_buffer_slice := Slice 0 3; y_buffer_slice := Slice 0 3 |}
           [] [] (Slice 0 4) (TileDBError "read failed")
           eq_refl eq_refl).
Defined.

(** ** The sequencer: reads, defaults and failures *)

Lemma get_buffer_size_generator_world (array : Array) (attrs : list string)
      (w : World) :
  snd (get_buffer_size_generator array attrs w) = w.
Proof.
  unfold get_buffer_size_generator.
  destruct (sparse (schema array)); unfold bind.
  - unfold SparseTileDBTensorGenerator.init.
    destruct (negb _); [reflexivity|].
    unfold bind, lift.
    destruct (domain_dim _ 0); [|reflexivity].
    destruct (domain_dim _ 1); [|reflexivity].
    destruct (map_result _ attrs); reflexivity.
  - reflexivity.
Qed.

(** A generator as constructed reads through the query for its array and
    attributes and has no buffer. *)
Lemma constructed_generator (array : Array) (attrs : list string)
      (w w' : World) (gen : TileDBTensorGenerator) :
  get_buffer_size_generator array attrs w = (Ok gen, w') ->
  w' = w
  /\ gen_query gen = array_query array attrs
  /\ forall s, iter_tensors gen s
               = Raise (AttributeError (if sparse (schema array)
                                        then "_buf_csrs" else "_buf_arrays")).
Proof.
  intros H. split.
  { pose proof (get_buffer_size_generator_world array attrs w) as Hw.
    rewrite H in Hw. exact Hw. }
  unfold get_buffer_size_generator in H.
  destruct (sparse (schema array)).
  - apply bind_inv in H. destruct H as (g & w1 & Hinit & Hret).
    injection Hret as <- _.
    unfold SparseTileDBTensorGenerator.init in Hinit.
    destruct (negb (ndim (schema array) =? 2)); [discriminate|].
    apply bind_inv in Hinit. destruct Hinit as (d0 & w2 & _ & Hinit).
    apply bind_inv in Hinit. destruct Hinit as (d1 & w3 & _ & Hinit).
    apply bind_inv in Hinit. destruct Hinit as (dtypes & w4 & _ & Hinit).
    injection Hinit as <- _. split; reflexivity.
  - apply bind_inv in H. destruct H as (g & w1 & Hinit & Hret).
    injection Hret as <- _. injection Hinit as <- _. split; reflexivity.
Qed.

Lemma prologue_inv (iter_batches : Z -> Z -> Z -> Z -> list Batch) (a : Args)
      (w w0 : World) x_gen y_gen batches :
  prologue iter_batches a w = (Ok (x_gen, y_gen, batches), w0) ->
  w0 = w
  /\ get_buffer_size_generator (x_array a) (x_attrs a) w = (Ok x_gen, w)
  /\ get_buffer_size_generator (y_array a) (y_attrs a) w = (Ok y_gen, w).
Proof.
  unfold prologue. intros H.
  apply bind_inv in H. destruct H as (x1 & w1 & Hx & H).
  apply bind_inv in H. destruct H as (y1 & w2 & Hy & H).
  apply bind_inv in H. destruct H as (stop' & w3 & Hs & H).
  injection H as <- <- _ <-.
  destruct (constructed_generator _ _ _ _ _ Hx) as [-> _].
  destruct (constructed_generator _ _ _ _ _ Hy) as [-> _].
  assert (w3 = w).
  { destruct (stop_offset a =? 0).
    - unfold lift in Hs. now injection Hs as _ <-.
    - now injection Hs as _ <-. }
  subst w3. repeat split; assumption.
Qed.

Lemma run_loop_log (x_gen y_gen : TileDBTensorGenerator) (batches : list Batch)
      (w w' : World) (steps : list Step) :
  run_loop x_gen y_gen batches w = (steps, None, w') ->
  map step_batch steps = batches
  /\ w' = w ++ reads_of (gen_query x_gen) (gen_query y_gen) batches.
Proof.
  revert x_gen y_gen w steps w'.
  induction batches as [|batch rest IH]; intros x_gen y_gen w steps w' H;
    simpl in H.
  - injection H as <- <-. simpl. now rewrite app_nil_r.
  - destruct (loop_body x_gen y_gen batch w)
      as [[[[x' y'] [xs ys]]|e] w1] eqn:Eb; [|discriminate].
    destruct (run_loop x' y' rest w1) as [[steps1 err1] w2] eqn:Er.
    injection H as <- -> <-.
    destruct (IH _ _ _ _ _ Er) as [Hm Hw].
    apply loop_body_inv in Eb. destruct Eb as (w0 & Hrx & Hry & _ & _).
    destruct (read_if_log x_gen (x_read_slice batch) w) as [Hwx Hqx].
    destruct (read_if_log y_gen (y_read_slice batch) w0) as [Hwy Hqy].
    rewrite Hrx in Hwx, Hqx. rewrite Hry in Hwy, Hqy. simpl in Hwx, Hwy.
    split; [simpl; now rewrite Hm|].
    rewrite Hw, (Hqx x' eq_refl), (Hqy y' eq_refl), Hwy, Hwx.
    simpl. unfold batch_reads. now rewrite <- !app_assoc.
Qed.

(** X3.  A traversal that ends without an exception has run every window of
    [iter_batches] in order and has read the store exactly as the windows
    ask: one read per read slice that is present, of the attributes of the
    call, the feature array before the label array within a step, and no
    other read. *)
Theorem traversal_reads_what_windows_ask
        (iter_batches : Z -> Z -> Z -> Z -> list Batch) (a : Args)
        (w w' : World) (steps : list Step) :
  run iter_batches (Created a) w = (steps, None, w') ->
  exists x_gen y_gen batches,
    prologue iter_batches a w = (Ok (x_gen, y_gen, batches), w)
    /\ map step_batch steps = batches
    /\ w' = w ++ reads_of (array_query (x_array a) (x_attrs a))
                          (array_query (y_array a) (y_attrs a)) batches.
Proof.
  unfold run.
  destruct (prologue iter_batches a w) as [[[[x_gen y_gen] batches]|e] w0]
                                            eqn:Ep; [|discriminate].
  intros H. destruct (prologue_inv _ _ _ _ _ _ _ Ep) as (-> & Hx & Hy).
  destruct (run_loop_log _ _ _ _ _ _ H) as [Hm Hw].
  destruct (constructed_generator _ _ _ _ _ Hx) as (_ & Hqx & _).
  destruct (constructed_generator _ _ _ _ _ Hy) as (_ & Hqy & _).
  exists x_gen, y_gen, batches. rewrite <- Hqx, <- Hqy.
  repeat split; assumption.
Qed.

Lemma traversal_reads_what_windows_ask_witness :
  exists x_gen y_gen batches,
    prologue iter_batches_windows
             (example_args (sparse_example "x" (dims2 7)) (dense_example "y" 7)
                           4 3) []
    = (Ok (x_gen, y_gen, batches), [])
    /\ map step_batch
           (fst (fst (run iter_batches_windows
                          (Created (example_args
                                      (sparse_example "x" (dims2 7))
                                      (dense_example "y" 7) 4 3)) [])))
       = batches
    /\ [ {| ev_uri := "x"; ev_attrs := ["data"]; ev_slice := Slice 0 4 |};
         {| ev_uri := "y"; ev_attrs := ["data"]; ev_slice := Slice 0 3 |};
         {| ev_uri := "y"; ev_attrs := ["data"]; ev_slice := Slice 3 6 |};
         {| ev_uri := "x"; ev_attrs := ["data"]; ev_slice := Slice 4 7 |};
         {| ev_uri := "y"; ev_attrs := ["data"]; ev_slice := Slice 6 7 |} ]
       = [] ++ reads_of (array_query (sparse_example "x" (dims2 7)) ["data"])
                        (array_query (dense_example "y" 7) ["data"]) batches.
Proof.
  apply (traversal_reads_what_windows_ask
           iter_batches_windows
           (example_args (sparse_example "x" (dims2 7)) (dense_example "y" 7)
                         4 3)).
  vm_compute. reflexivity.
Defined.

(** X4.  A first window that carries no read instruction for the feature
    stream makes the first request fail: the label read of the window, if it
    has one and the store answers it, is made, and then [AttributeError] is
    raised for the feature buffer that does not exist; no batch is yielded
    and the generator object is closed. *)
Theorem first_window_without_read_raises
        (iter_batches : Z -> Z -> Z -> Z -> list Batch) (a : Args) (w : World)
        (x_gen y_gen y_gen' : TileDBTensorGenerator)
        (batch : Batch) (rest : list Batch) (w' : World) :
  prologue iter_batches a w = (Ok (x_gen, y_gen, batch :: rest), w) ->
  x_read_slice batch = None ->
  read_if y_gen (y_read_slice batch) w = (Ok y_gen', w') ->
  gen_next iter_batches (Created a) w
  = (Raised (AttributeError (if sparse (schema (x_array a))
                             then "_buf_csrs" else "_buf_arrays")),
     Closed,
     w ++ slice_reads (array_query (y_array a) (y_attrs a))
                      (y_read_slice batch)).
Proof.
  intros Hp Hx Hy. unfold gen_next. rewrite Hp.
  destruct (prologue_inv _ _ _ _ _ _ _ Hp) as (_ & Hgx & Hgy).
  destruct (constructed_generator _ _ _ _ _ Hgx) as (_ & _ & Hit).
  destruct (constructed_generator _ _ _ _ _ Hgy) as (_ & Hqy & _).
  destruct (read_if_log y_gen (y_read_slice batch) w) as [Hw _].
  rewrite Hy in Hw. simpl in Hw.
  unfold resume, loop_body. rewrite Hx. simpl read_if.
  unfold bind at 1. unfold ret at 1.
  rewrite (bind_ok _ _ _ _ _ Hy).
  unfold bind, lift. rewrite Hit, Hw, Hqy. reflexivity.
Qed.

Lemma first_window_without_read_raises_witness :
  gen_next (fun _ _ _ _ =>
              [ {| x_read_slice := None; y_read_slice := Some (Slice 0 3);
                   x_buffer_slice := Slice 0 3;
                   y_buffer_slice := Slice 0 3 |} ])
           (Created (example_args (sparse_example "x" (dims2 7))
                                  (dense_example "y" 7) 4 3)) []
  = (Raised (AttributeError "_buf_csrs"), Closed,
     [ {| ev_uri := "y"; ev_attrs := ["data"]; ev_slice := Slice 0 3 |} ]).
Proof.
  eapply (first_window_without_read_raises
            (fun _ _ _ _ =>
               [ {| x_read_slice := None; y_read_slice := Some (Slice 0 3);
                    x_buffer_slice := Slice 0 3;
                    y_buffer_slice := Slice 0 3 |} ])
            (example_args (sparse_example "x" (dims2 7)) (dense_example "y" 7)
                          4 3) []
            _ _ _
            {| x_read_slice := None; y_read_slice := Some (Slice 0 3);
               x_buffer_slice := Slice 0 3; y_buffer_slice := Slice 0 3 |}
            []).
  - reflexivity.
  - reflexivity.
  - reflexivity.
Defined.

Lemma prologue_stop_offset_default
      (iter_batches : Z -> Z -> Z -> Z -> list Batch) (a : Args) (w : World)
      (x_rows : Z) (x_row_shape : list Z) :
  array_shape (x_array a) = x_rows :: x_row_shape ->
  stop_offset a = 0 ->
  prologue iter_batches a w
  = prologue iter_batches (with_stop_offset a x_rows) w.
Proof.
  intros Hs H0. unfold prologue. simpl. rewrite H0, Hs. simpl.
  destruct (x_rows =? 0) eqn:E; [|reflexivity].
  apply Z.eqb_eq in E. subst x_rows. reflexivity.
Qed.

(** X5.  A [stop_offset] of 0 is not an empty range: the call behaves, at
    every request and over a whole traversal, as the call with [stop_offset]
    set to the number of rows of the feature array. *)
Theorem stop_offset_zero_means_all_feature_rows
        (iter_batches : Z -> Z -> Z -> Z -> list Batch) (a : Args) (w : World)
        (x_rows : Z) (x_row_shape : list Z) :
  array_shape (x_array a) = x_rows :: x_row_shape ->
  stop_offset a = 0 ->
  gen_next iter_batches (Created a) w
  = gen_next iter_batches (Created (with_stop_offset a x_rows)) w
  /\ run iter_batches (Created a) w
     = run iter_batches (Created (with_stop_offset a x_rows)) w.
Proof.
  intros Hs H0. unfold gen_next, run.
  rewrite (prologue_stop_offset_default iter_batches a w _ _ Hs H0).
  split; reflexivity.
Qed.

Lemma stop_offset_zero_means_all_feature_rows_witness :
  gen_next iter_batches_windows (Created mismatch_args) []
  = gen_next iter_batches_windows
             (Created (with_stop_offset mismatch_args 108)) []
  /\ run iter_batches_windows (Created mismatch_args) []
     = run iter_batches_windows
           (Created (with_stop_offset mismatch_args 108)) [].
Proof.
  apply (stop_offset_zero_means_all_feature_rows
           iter_batches_windows mismatch_args [] 108 [2]);
    reflexivity.
Defined.

(** X6.  The label array is guarded as the feature array is: when the
    feature generator is constructed and the label array is sparse with a
    number of dimensions other than 2, the first request raises
    [NotImplementedError], reads nothing and closes the generator object. *)
Theorem label_array_schema_guard
        (iter_batches : Z -> Z -> Z -> Z -> list Batch) (a : Args) (w : World)
        (x_gen : TileDBTensorGenerator) :
  get_buffer_size_generator (x_array a) (x_attrs a) w = (Ok x_gen, w) ->
  sparse (schema (y_array a)) = true ->
  ndim (schema (y_array a)) <> 2 ->
  gen_next iter_batches (Created a) w
  = (Raised (NotImplementedError
               "Only 2D sparse tensors are currently supported"),
     Closed, w).
Proof.
  intros Hx Hs Hn. unfold gen_next, prologue.
  rewrite (bind_ok _ _ _ _ _ Hx).
  unfold get_buffer_size_generator at 1. rewrite Hs.
  rewrite (bind_raise _ _ w w _
             (bind_raise _ _ w w _ (sparse_init_unsupported _ _ w Hn))).
  reflexivity.
Qed.

Lemma label_array_schema_guard_witness :
  gen_next iter_batches_windows
           (Created (example_args (dense_example "x" 9)
                                  (sparse_example "y" (dims3 9)) 4 3)) []
  = (Raised (NotImplementedError
               "Only 2D sparse tensors are currently supported"),
     Closed, []).
Proof.
  eapply (label_array_schema_guard
            iter_batches_windows
            (example_args (dense_example "x" 9) (sparse_example "y" (dims3 9))
                          4 3) []).
  - reflexivity.
  - reflexivity.
  - vm_compute. discriminate.
Defined.

(** ** Dense arrays: whole traversals and rows *)

Lemma dense_read_if_total (g : TileDBNumpyGenerator.t) (s : option slice)
      (w : World) :
  (forall sl, s = Some sl ->
              exists buffer,
                dense_cells (q_array (TileDBNumpyGenerator.query g))
                            (q_attrs (TileDBNumpyGenerator.query g)) sl
                = Ok buffer) ->
  exists g' w',
    read_if (NumpyGen g) s w = (Ok (NumpyGen g'), w')
    /\ TileDBNumpyGenerator.query g' = TileDBNumpyGenerator.query g
    /\ (s <> None \/ TileDBNumpyGenerator.buf_arrays g <> None ->
        TileDBNumpyGenerator.buf_arrays g' <> None).
Proof.
  intros Hstore. destruct s as [sl|]; simpl.
  - destruct (Hstore sl eq_refl) as [buffer Hb].
    rewrite (bind_ok _ _ _ _ _ (numpy_read_buffer_run g sl w buffer Hb)).
    eexists _, _. split; [reflexivity|]. simpl. split; [reflexivity|].
    intros _. discriminate.
  - exists g, w. split; [reflexivity|]. split; [reflexivity|].
    intros [H|H]; [contradiction | exact H].
Qed.

Lemma dense_run_loop_total (batches : list Batch)
      (gx gy : TileDBNumpyGenerator.t) (x_len y_len : option Z) (w : World) :
  (x_len <> None -> TileDBNumpyGenerator.buf_arrays gx <> None) ->
  (y_len <> None -> TileDBNumpyGenerator.buf_arrays gy <> None) ->
  windows_fit x_len y_len batches ->
  (forall b s, In b batches -> x_read_slice b = Some s ->
               exists buffer,
                 dense_cells (q_array (TileDBNumpyGenerator.query gx))
                             (q_attrs (TileDBNumpyGenerator.query gx)) s
                 = Ok buffer) ->
  (forall b s, In b batches -> y_read_slice b = Some s ->
               exists buffer,
                 dense_cells (q_array (TileDBNumpyGenerator.query gy))
                             (q_attrs (TileDBNumpyGenerator.query gy)) s
                 = Ok buffer) ->
  exists steps w',
    run_loop (NumpyGen gx) (NumpyGen gy) batches w = (steps, None, w')
    /\ map step_batch steps = batches.
Proof.
  revert gx gy x_len y_len w.
  induction batches as [|b rest IH]; intros gx gy x_len y_len w Hbx Hby Hfit
                                            Hsx Hsy.
  - exists [], w. split; reflexivity.
  - destruct Hfit as (Hfx & Hfy & Hrest).
    destruct (dense_read_if_total gx (x_read_slice b) w)
      as (gx' & w1 & Hrx & Hqx & Hbx').
    { intros sl Hsl. apply (Hsx b sl); [now left | exact Hsl]. }
    destruct (dense_read_if_total gy (y_read_slice b) w1)
      as (gy' & w2 & Hry & Hqy & Hby').
    { intros sl Hsl. apply (Hsy b sl); [now left | exact Hsl]. }
    assert (Hx' : buffered x_len (x_read_slice b) <> None ->
                  TileDBNumpyGenerator.buf_arrays gx' <> None).
    { intros Hn. apply Hbx'. destruct (x_read_slice b); simpl in Hn.
      - left. discriminate.
      - right. now apply Hbx. }
    assert (Hy' : buffered y_len (y_read_slice b) <> None ->
                  TileDBNumpyGenerator.buf_arrays gy' <> None).
    { intros Hn. apply Hby'. destruct (y_read_slice b); simpl in Hn.
      - left. discriminate.
      - right. now apply Hby. }
    assert (Hnx : TileDBNumpyGenerator.buf_arrays gx' <> None).
    { apply Hx'. destruct (buffered x_len (x_read_slice b));
        [discriminate | contradiction]. }
    assert (Hny : TileDBNumpyGenerator.buf_arrays gy' <> None).
    { apply Hy'. destruct (buffered y_len (y_read_slice b));
        [discriminate | contradiction]. }
    destruct (IH gx' gy' _ _ w2 Hx' Hy' Hrest) as (steps & w' & Hrun & Hm).
    { rewrite Hqx. intros b' s Hin. apply Hsx. now right. }
    { rewrite Hqy. intros b' s Hin. apply Hsy. now right. }
    simpl. unfold loop_body.
    rewrite (bind_ok _ _ _ _ _ Hrx), (bind_ok _ _ _ _ _ Hry).
    unfold bind, lift, ret. simpl.
    unfold TileDBNumpyGenerator.iter_tensors.
    destruct (TileDBNumpyGenerator.buf_arrays gx'); [|contradiction].
    destruct (TileDBNumpyGenerator.buf_arrays gy'); [|contradiction].
    rewrite Hrun. eexists _, w'. split; [reflexivity|].
    simpl. now rewrite Hm.
Qed.

(** X7.  Over two dense arrays a traversal cannot fail in the generators:
    when the store answers every read the windows ask for and every extract
    slice lies inside the buffer fetched last, the traversal ends without an
    exception and yields exactly one batch per window, in the order of the
    windows. *)
Theorem dense_traversal_yields_every_window
        (iter_batches : Z -> Z -> Z -> Z -> list Batch) (a : Args) (w : World)
        (x_gen y_gen : TileDBTensorGenerator) (batches : list Batch) :
  sparse (schema (x_array a)) = false ->
  sparse (schema (y_array a)) = false ->
  prologue iter_batches a w = (Ok (x_gen, y_gen, batches), w) ->
  windows_fit None None batches ->
  (forall b s, In b batches -> x_read_slice b = Some s ->
               exists buffer, dense_cells (x_array a) (x_attrs a) s = Ok buffer) ->
  (forall b s, In b batches -> y_read_slice b = Some s ->
               exists buffer, dense_cells (y_array a) (y_attrs a) s = Ok buffer) ->
  exists steps w',
    run iter_batches (Created a) w = (steps, None, w')
    /\ map step_batch steps = batches.
Proof.
  intros Hdx Hdy Hp Hfit Hsx Hsy. unfold run. rewrite Hp.
  destruct (prologue_inv _ _ _ _ _ _ _ Hp) as (_ & Hgx & Hgy).
  rewrite (dense_generator_constructed _ _ w Hdx) in Hgx.
  rewrite (dense_generator_constructed _ _ w Hdy) in Hgy.
  injection Hgx as <-. injection Hgy as <-.
  apply (dense_run_loop_total batches _ _ None None w);
    try assumption; intros H; contradiction.
Qed.

Lemma dense_traversal_yields_every_window_witness :
  exists steps w',
    run iter_batches_windows
        (Created (example_args (dense_example "x" 7) (dense_example "y" 7) 4 3))
        []
    = (steps, None, w')
    /\ map step_batch steps = iter_batches_windows 4 3 0 7.
Proof.
  eapply (dense_traversal_yields_every_window
            iter_batches_windows
            (example_args (dense_example "x" 7) (dense_example "y" 7) 4 3) []).
  - reflexivity.
  - reflexivity.
  - reflexivity.
  - vm_compute. repeat split; discriminate.
  - intros b s Hin Hs. vm_compute in Hin.
    repeat (destruct Hin as [<-|Hin]; [simpl in Hs; try discriminate;
                                       injection Hs as <-; eexists;
                                       reflexivity|]).
    contradiction.
  - intros b s Hin Hs. vm_compute in Hin.
    repeat (destruct Hin as [<-|Hin]; [simpl in Hs; try discriminate;
                                       injection Hs as <-; eexists;
                                       reflexivity|]).
    contradiction.
Defined.

Lemma firstn_seq_le (k j n : nat) :
  (k <= n)%nat -> firstn k (seq j n) = seq j k.
Proof.
  revert j n. induction k as [|k IH]; intros j [|n] H; simpl;
    try reflexivity; try lia.
  f_equal. apply IH. lia.
Qed.

Lemma map_seq_from (lo : Z) (j k : nat) :
  map (fun i => lo + Z.of_nat i) (seq j k)
  = map (fun i => lo + Z.of_nat j + Z.of_nat i) (seq 0 k).
Proof.
  revert lo. induction j as [|j IH]; intros lo.
  - apply map_ext. intros i. lia.
  - rewrite <- seq_shift, map_map.
    rewrite (map_ext (fun i => lo + Z.of_nat (S i))
                     (fun i => lo + 1 + Z.of_nat i)) by (intros; lia).
    rewrite IH. apply map_ext. intros i. lia.
Qed.

(** A slice of the rows [[lo, hi)] is the rows of the slice moved by [lo]. *)
Lemma getitem_slice_rows_between (lo hi : Z) (s : slice) :
  0 <= start s -> start s <= stop s -> stop s <= hi - lo ->
  getitem_slice (rows_between lo hi) s
  = rows_between (lo + start s) (lo + stop s).
Proof.
  intros H0 H1 H2.
  rewrite getitem_slice_inside;
    try assumption;
    [|unfold rows_between; rewrite length_map, length_seq; lia].
  unfold rows_between, slice_len.
  rewrite skipn_map, firstn_map, skipn_seq, firstn_seq_le by lia.
  simpl. rewrite map_seq_from.
  replace (lo + stop s - (lo + start s)) with (stop s - start s) by lia.
  apply map_ext. intros i. lia.
Qed.

Lemma getitem_slice_map {A B : Type} (f : A -> B) (l : list A) (s : slice) :
  getitem_slice (map f l) s = map f (getitem_slice l s).
Proof.
  unfold getitem_slice. rewrite length_map.
  destruct (slice_indices s (Z.of_nat (length l))) as [i0 i1].
  now rewrite skipn_map, firstn_map.
Qed.

(** X8.  Extract slices are local to the buffer and read slices are global:
    when the store answers a read of [[start, stop)] with the rows
    [cell attr i] of the array for [i] in that range, [read_buffer] of the
    read slice followed by [iter_tensors] of an extract slice inside the
    buffer yields, for every attribute in order, the rows of the array at
    [read_slice.start + extract_slice.start] up to
    [read_slice.start + extract_slice.stop], unchanged. *)
Theorem dense_window_is_array_rows
        (self : TileDBNumpyGenerator.t) (read_slice extract_slice : slice)
        (w : World) (cell : string -> Z -> list Z) :
  dense_cells (q_array (TileDBNumpyGenerator.query self))
              (q_attrs (TileDBNumpyGenerator.query self)) read_slice
  = Ok (map (fun attr =>
               (attr, map (cell attr)
                          (rows_between (start read_slice) (stop read_slice))))
            (q_attrs (TileDBNumpyGenerator.query self))) ->
  0 <= start extract_slice ->
  start extract_slice <= stop extract_slice ->
  stop extract_slice <= slice_len read_slice ->
  exists self' w',
    TileDBNumpyGenerator.read_buffer self read_slice w = (Ok self', w')
    /\ TileDBNumpyGenerator.iter_tensors self' extract_slice
       = Ok (map (fun attr =>
                    DenseTensor
                      (map (cell attr)
                           (rows_between
                              (start read_slice + start extract_slice)
                              (start read_slice + stop extract_slice))))
                 (q_attrs (TileDBNumpyGenerator.query self))).
Proof.
  intros Hread H0 H1 H2.
  eexists _, _. split; [apply numpy_read_buffer_run; exact Hread|].
  unfold TileDBNumpyGenerator.iter_tensors. simpl. f_equal.
  unfold od_values. rewrite !map_map. apply map_ext. intros attr. simpl.
  rewrite getitem_slice_map, getitem_slice_rows_between; try assumption.
  reflexivity.
Qed.

Lemma dense_window_is_array_rows_witness :
  exists self' w',
    TileDBNumpyGenerator.read_buffer
      {| TileDBNumpyGenerator.query :=
           array_query (dense_example "x" 10) ["data"];
         TileDBNumpyGenerator.buf_arrays := None |}
      (Slice 3 7) [] = (Ok self', w')
    /\ TileDBNumpyGenerator.iter_tensors self' (Slice 1 3)
       = Ok (map (fun attr =>
                    DenseTensor
                      (map (fun i => [2 * i; 2 * i + 1])
                           (rows_between (3 + 1) (3 + 3))))
                 ["data"]).
Proof.
  apply (dense_window_is_array_rows
           {| TileDBNumpyGenerator.query :=
                array_query (dense_example "x" 10) ["data"];
              TileDBNumpyGenerator.buf_arrays := None |}
           (Slice 3 7) (Slice 1 3) []
           (fun _ i => [2 * i; 2 * i + 1])).
  - reflexivity.
  - simpl; lia.
  - simpl; lia.
  - unfold slice_len; simpl; lia.
Defined.

(** ** Extract slices that leave the buffer *)

Lemma clamp_index_nonneg (i n : Z) : 0 <= i -> clamp_index i n = Z.min i n.
Proof.
  intros H. unfold clamp_index.
  destruct (i <? 0) eqn:E; [apply Z.ltb_lt in E; lia | reflexivity].
Qed.

Lemma getitem_slice_length_clipped {A : Type} (l : list A) (s : slice) :
  0 <= start s -> 0 <= stop s ->
  Z.of_nat (length (getitem_slice l s)) = clipped_len s (Z.of_nat (length l)).
Proof.
  intros H0 H1. unfold getitem_slice, slice_indices, clipped_len.
  rewrite !clamp_index_nonneg by assumption.
  rewrite length_firstn, length_skipn. lia.
Qed.

Lemma csr_getitem_rows_clipped (m : csr_matrix) (s : slice) :
  0 <= start s -> 0 <= stop s ->
  fst (csr_shape (csr_getitem m s)) = clipped_len s (fst (csr_shape m)).
Proof.
  intros H0 H1. unfold csr_getitem, slice_indices, clipped_len.
  rewrite !clamp_index_nonneg by assumption. simpl. lia.
Qed.

(** X9.  [iter_tensors] does not check the extract slice against the
    buffer.  On a generator holding a buffer of [n] rows, a slice with
    bounds that are not negative, inside the buffer or not, raises nothing
    and yields one tensor per attribute whose leading dimension is the
    number of rows of the buffer that the slice covers,
    [max 0 (min stop n - min start n)]. *)
Theorem extract_slice_is_clipped_to_buffer
        (array : Array) (attrs : list string) (n : Z)
        (gen : TileDBTensorGenerator) (s : slice) :
  gen_inv array attrs (Some n) gen ->
  0 <= start s -> 0 <= stop s ->
  exists tensors,
    iter_tensors gen s = Ok tensors
    /\ length tensors = length attrs
    /\ Forall (fun t => leading_dim t = Some (clipped_len s n)) tensors.
Proof.
  intros Hinv H0 H1. destruct gen as [g|g]; simpl in *.
  - destruct Hinv as (_ & _ & bufs & Hb & Hlen & Hrows).
    unfold TileDBNumpyGenerator.iter_tensors. rewrite Hb.
    eexists. split; [reflexivity|]. split; [now rewrite length_map|].
    apply Forall_map. eapply Forall_impl; [|exact Hrows].
    intros b Hbn. simpl in *. f_equal. rewrite <- Hbn.
    now apply getitem_slice_length_clipped.
  - destruct Hinv as (_ & _ & Hdt & ncols & Hrs & csrs & Hb & Hlen & Hcsr).
    unfold SparseTileDBTensorGenerator.iter_tensors. rewrite Hb.
    eexists. split; [reflexivity|]. split.
    + rewrite length_map, length_combine. lia.
    + apply Forall_map, Forall_forall. intros [m dtype] Hin.
      apply in_combine_l in Hin. rewrite Forall_forall in Hcsr.
      specialize (Hcsr m Hin).
      unfold SparseTileDBTensorGenerator.tensor_of. cbn [leading_dim].
      f_equal. rewrite csr_getitem_rows_clipped by assumption.
      now rewrite Hcsr.
Qed.

Lemma extract_slice_is_clipped_to_buffer_witness :
  exists tensors,
    iter_tensors (SparseGen sparse_gen_example_read) (Slice 3 9) = Ok tensors
    /\ length tensors = 1%nat
    /\ Forall (fun t => leading_dim t = Some (clipped_len (Slice 3 9) 4))
              tensors.
Proof.
  apply (extract_slice_is_clipped_to_buffer
           (sparse_example "x" (dims2 9)) ["data"] 4
           (SparseGen sparse_gen_example_read) (Slice 3 9)).
  - simpl. split; [reflexivity|]. split; [reflexivity|].
    split; [reflexivity|]. exists 3. split; [reflexivity|].
    eexists. split; [reflexivity|]. split; [reflexivity|].
    repeat constructor.
  - simpl; lia.
  - simpl; lia.
Defined.

(** ** Sparse arrays: what a window holds *)

Lemma Forall2_nth_error_l {A B : Type} (P : A -> B -> Prop)
      (l : list A) (l' : list B) (k : nat) (a : A) :
  Forall2 P l l' -> nth_error l k = Some a ->
  exists b, nth_error l' k = Some b /\ P a b.
Proof.
  intros H. revert k. induction H as [|x y l l' Hxy _ IH]; intros k Hk.
  - destruct k; discriminate.
  - destruct k as [|k]; simpl in *.
    + injection Hk as <-. now exists y.
    + now apply IH.
Qed.

Lemma combine_map_l_eq {A B C : Type} (f : A -> B) (l : list A) (l' : list C) :
  combine (map f l) l' = map (fun p => (f (fst p), snd p)) (combine l l').
Proof.
  revert l'. induction l as [|a l IH]; intros [|c l']; simpl;
    try reflexivity.
  now rewrite IH.
Qed.

(** The entries [sp.csr_matrix] is given, in terms of what the store
    answered. *)
Lemma rebased_entries (data row col : list Z) (offset : Z) (r c v : Z) :
  In (r, c, v) (coo_entries data (map (fun x => x - offset) row) col)
  <-> In (r + offset, c, v) (combine (combine row col) data).
Proof.
  unfold coo_entries. rewrite !combine_map_l_eq, in_map_iff. split.
  - intros ([[r0 c0] v0] & H & Hin). simpl in H. injection H as <- <- <-.
    now replace (r0 - offset + offset) with r0 by lia.
  - intros H. exists (r + offset, c, v). simpl. split; [|exact H].
    f_equal. f_equal. lia.
Qed.

Lemma sp_csr_matrix_checked (data row col : list Z) (m n : Z)
      (mtx : csr_matrix) :
  sp_csr_matrix data row col [m; n] = Ok mtx ->
  length row = length data /\ length col = length data
  /\ Forall (fun e : entry => (0 <= fst (fst e) < m) /\ 0 <= snd (fst e) < n)
            (coo_entries data row col)
  /\ csr_rows mtx = map (fun i => csr_row_of (coo_entries data row col)
                                             (Z.of_nat i))
                        (seq 0 (Z.to_nat m)).
Proof.
  unfold sp_csr_matrix.
  destruct ((m <? 0) || (n <? 0)); [discriminate|].
  destruct ((length row =? length data)%nat
            && (length col =? length data)%nat) eqn:El; [|discriminate].
  simpl.
  destruct (forallb (entry_in_bounds m n) (coo_entries data row col)) eqn:Ef;
    [|discriminate].
  simpl. intros H. injection H as <-.
  apply andb_prop in El. destruct El as [E1 E2].
  apply Nat.eqb_eq in E1, E2.
  split; [exact E1|]. split; [exact E2|]. split; [|reflexivity].
  apply Forall_forall. intros [[r c] v] Hin.
  rewrite forallb_forall in Ef. specialize (Ef _ Hin).
  unfold entry_in_bounds in Ef. simpl.
  apply andb_prop in Ef. destruct Ef as [Ef E4].
  apply andb_prop in Ef. destruct Ef as [Ef E3].
  apply andb_prop in Ef. destruct Ef as [E5 E6].
  apply Z.leb_le in E5, E3. apply Z.ltb_lt in E6, E4. lia.
Qed.

(** The coordinates stored in a matrix that [sp.csr_matrix] returned are
    those it was given. *)
Lemma sp_csr_matrix_coords (data row col : list Z) (m n : Z)
      (mtx : csr_matrix) (r c : Z) :
  sp_csr_matrix data row col [m; n] = Ok mtx ->
  ((exists v, In (r, c, v) (rows_entries 0 (csr_rows mtx)))
   <-> exists v, In (r, c, v) (coo_entries data row col)).
Proof.
  intros H. apply sp_csr_matrix_checked in H.
  destruct H as (_ & _ & Hb & ->).
  apply csr_rows_of_entries.
  eapply Forall_impl; [|exact Hb]. intros e He. apply He.
Qed.

(** What [read_buffer] and then [iter_tensors] give for the k-th value
    vector of the store's answer: the tensor of the matrix built from it. *)
Lemma sparse_window_tensor
      (self self' : SparseTileDBTensorGenerator.t) (read_slice extract_slice : slice)
      (w w' : World) (ncols : Z)
      (buffer rest datas : OrderedDict (list Z)) (row col : list Z)
      (k : nat) (name : string) (values : list Z) (dtype : string) :
  SparseTileDBTensorGenerator.row_shape self = [ncols] ->
  sparse_cells (q_array (SparseTileDBTensorGenerator.query self))
               (q_attrs (SparseTileDBTensorGenerator.query self)) read_slice
  = Ok buffer ->
  od_pop (SparseTileDBTensorGenerator.row_dim self) buffer = Some (row, rest) ->
  od_pop (SparseTileDBTensorGenerator.col_dim self) rest = Some (col, datas) ->
  SparseTileDBTensorGenerator.read_buffer self read_slice w = (Ok self', w') ->
  nth_error datas k = Some (name, values) ->
  nth_error (SparseTileDBTensorGenerator.attr_dtypes self) k = Some dtype ->
  exists tensors m,
    SparseTileDBTensorGenerator.iter_tensors self' extract_slice = Ok tensors
    /\ sp_csr_matrix values (map (fun r => r - start read_slice) row) col
                     [slice_len read_slice; ncols] = Ok m
    /\ SparseTileDBTensorGenerator.row_shape self' = [ncols]
    /\ nth_error tensors k
       = Some (SparseTileDBTensorGenerator.tensor_of self' extract_slice
                                                     (m, dtype)).
Proof.
  intros Hshape Hq Hp1 Hp2 Hread Hk Hd.
  apply sparse_read_buffer_inv in Hread.
  destruct Hread as (buffer' & row' & rest' & col' & datas' & csrs
                     & Hq' & Hp1' & Hp2' & Hm & Hbuf & Hrs & Hdt & _ & _).
  rewrite Hq in Hq'. injection Hq' as <-.
  rewrite Hp1 in Hp1'. injection Hp1' as <- <-.
  rewrite Hp2 in Hp2'. injection Hp2' as <- <-.
  rewrite Hshape in Hm. apply map_result_Forall2 in Hm.
  assert (Hv : nth_error (od_values datas) k = Some values).
  { unfold od_values. rewrite nth_error_map, Hk. reflexivity. }
  destruct (Forall2_nth_error_l _ _ _ _ _ Hm Hv) as (m & Hmk & Hcsr).
  eexists _, m. split.
  { unfold SparseTileDBTensorGenerator.iter_tensors. rewrite Hbuf.
    reflexivity. }
  split; [exact Hcsr|]. split; [congruence|].
  rewrite nth_error_map, Hdt.
  rewrite (nth_error_combine_some _ _ _ _ _ Hmk Hd). reflexivity.
Qed.

(** The entries of the tensor of an extract slice inside the buffer are
    those of the buffered matrix in the rows of the slice. *)
Lemma tensor_of_entries (self : SparseTileDBTensorGenerator.t) (s : slice)
      (m : csr_matrix) (dtype : string) (n ncols : Z) :
  csr_shape m = (n, ncols) ->
  0 <= start s -> start s <= stop s -> stop s <= n ->
  exists data coords,
    SparseTileDBTensorGenerator.tensor_of self s (m, dtype)
    = SparseTensor data coords
                   (slice_len s :: SparseTileDBTensorGenerator.row_shape self)
                   dtype
    /\ length coords = length data
    /\ forall r c v,
        In ([r; c], v) (combine coords data)
        <-> 0 <= r < slice_len s
            /\ In (r + start s, c, v) (rows_entries 0 (csr_rows m)).
Proof.
  intros Hm H0 H1 H2.
  unfold SparseTileDBTensorGenerator.tensor_of.
  rewrite csr_getitem_inside by (rewrite ?Hm; simpl; assumption).
  eexists _, _. split; [reflexivity|]. split; [apply tocoo_lengths|].
  intros r c v. rewrite tocoo_entries_In. simpl.
  rewrite sliced_rows_entries.
  rewrite !Z2Nat.id by (unfold slice_len; lia). reflexivity.
Qed.

(** X10.  The coordinates a sparse window emits are the coordinates the
    store holds in the rows of the window, and no others: after
    [read_buffer] of a read slice, the tensor that [iter_tensors] yields for
    the k-th attribute over an extract slice inside the buffer has the
    coordinate line [(r, c)] exactly when [0 <= r < len(extract_slice)] and
    the store answered with the coordinate
    [(read_slice.start + extract_slice.start + r, c)]. *)
Theorem sparse_window_coordinates
        (self self' : SparseTileDBTensorGenerator.t)
        (read_slice extract_slice : slice) (w w' : World) (ncols : Z)
        (buffer rest datas : OrderedDict (list Z)) (row col : list Z)
        (k : nat) (name : string) (values : list Z) (dtype : string) :
  SparseTileDBTensorGenerator.row_shape self = [ncols] ->
  sparse_cells (q_array (SparseTileDBTensorGenerator.query self))
               (q_attrs (SparseTileDBTensorGenerator.query self)) read_slice
  = Ok buffer ->
  od_pop (SparseTileDBTensorGenerator.row_dim self) buffer = Some (row, rest) ->
  od_pop (SparseTileDBTensorGenerator.col_dim self) rest = Some (col, datas) ->
  SparseTileDBTensorGenerator.read_buffer self read_slice w = (Ok self', w') ->
  nth_error datas k = Some (name, values) ->
  nth_error (SparseTileDBTensorGenerator.attr_dtypes self) k = Some dtype ->
  0 <= start extract_slice ->
  start extract_slice <= stop extract_slice ->
  stop extract_slice <= slice_len read_slice ->
  exists tensors data coords,
    SparseTileDBTensorGenerator.iter_tensors self' extract_slice = Ok tensors
    /\ nth_error tensors k
       = Some (SparseTensor data coords [slice_len extract_slice; ncols] dtype)
    /\ forall r c,
        In [r; c] coords
        <-> 0 <= r < slice_len extract_slice
            /\ In (start read_slice + start extract_slice + r, c)
                  (combine row col).
Proof.
  intros Hshape Hq Hp1 Hp2 Hread Hk Hd H0 H1 H2.
  destruct (sparse_window_tensor _ _ _ extract_slice _ _ _ _ _ _ _ _ _ _ _ _
              Hshape Hq Hp1 Hp2 Hread Hk Hd)
    as (tensors & m & Hit & Hcsr & Hrs & Hnth).
  destruct (sp_csr_matrix_inv _ _ _ _ _ _ Hcsr) as (_ & Hm & _).
  destruct (tensor_of_entries self' extract_slice m dtype _ _ Hm H0 H1 H2)
    as (data & coords & Ht & Hlen & Hent).
  rewrite Ht, Hrs in Hnth.
  exists tensors, data, coords. split; [exact Hit|]. split; [exact Hnth|].
  intros r c.
  rewrite <- (combine_with_values coords data [r; c] Hlen).
  destruct (sp_csr_matrix_checked _ _ _ _ _ _ Hcsr) as (Hl1 & Hl2 & _ & _).
  rewrite length_map in Hl1.
  assert (Hstore : forall r',
             (exists v, In (r', c, v) (rows_entries 0 (csr_rows m)))
             <-> In (r' + start read_slice, c) (combine row col)).
  { intros r'. rewrite (sp_csr_matrix_coords _ _ _ _ _ _ r' c Hcsr).
    rewrite <- (combine_with_values (combine row col) values
                                    (r' + start read_slice, c))
      by (rewrite length_combine; lia).
    split; intros [v Hv]; exists v; now apply rebased_entries. }
  replace (start read_slice + start extract_slice + r)
    with (r + start extract_slice + start read_slice) by lia.
  rewrite <- Hstore. split.
  - intros [v Hv]. apply Hent in Hv. destruct Hv as [Hr Hv].
    split; [exact Hr | now exists v].
  - intros [Hr [v Hv]]. exists v. apply Hent. now split.
Qed.

Lemma sparse_window_coordinates_witness :
  exists tensors data coords,
    SparseTileDBTensorGenerator.iter_tensors sparse_gen_example_read (Slice 1 3)
    = Ok tensors
    /\ nth_error tensors 0 = Some (SparseTensor data coords [2; 3] "float32")
    /\ forall r c,
        In [r; c] coords
        <-> 0 <= r < 2
            /\ In (3 + 1 + r, c) (combine [3; 4; 5; 6] [0; 1; 2; 0]).
Proof.
  apply (sparse_window_coordinates
           sparse_gen_example sparse_gen_example_read
           (Slice 3 7) (Slice 1 3) []
           [read_event (SparseTileDBTensorGenerator.query sparse_gen_example)
                       (Slice 3 7)] 3
           [("rows", [3; 4; 5; 6]); ("cols", [0; 1; 2; 0]);
            ("data", [4; 5; 6; 7])]
           [("cols", [0; 1; 2; 0]); ("data", [4; 5; 6; 7])]
           [("data", [4; 5; 6; 7])]
           [3; 4; 5; 6] [0; 1; 2; 0] 0 "data" [4; 5; 6; 7] "float32");
    try reflexivity; try (simpl; lia).
  unfold slice_len; simpl; lia.
Defined.

Lemma insert_sum_fresh (c0 v0 c v : Z) (r : list (Z * Z)) :
  ~ has_col c0 r ->
  (In (c, v) (insert_sum c0 v0 r) <-> (c, v) = (c0, v0) \/ In (c, v) r).
Proof.
  induction r as [|[c' v'] r IH]; intros Hfresh; simpl.
  - split; [intros [H|[]]; left; now symmetry | intros [H|[]]; left; now symmetry].
  - assert (Hne : c0 <> c').
    { intros ->. apply Hfresh. exists v'. now left. }
    assert (Hfresh' : ~ has_col c0 r).
    { intros [x Hx]. apply Hfresh. exists x. now right. }
    destruct (c0 <? c') eqn:E1; [|destruct (c0 =? c') eqn:E2].
    + simpl. split.
      * intros [H|H]; [left; now symmetry | now right].
      * intros [H|H]; [left; now symmetry | now right].
    + apply Z.eqb_eq in E2. contradiction.
    + simpl. rewrite (IH Hfresh'). tauto.
Qed.

Lemma fold_insert_values (es : list entry) (i c v : Z) (acc : list (Z * Z)) :
  NoDup (map fst es) ->
  (forall c', has_col c' acc -> ~ In (i, c') (map fst es)) ->
  (In (c, v) (fold_left (fun acc (e : entry) =>
                           let '(r, c, v) := e in
                           if r =? i then insert_sum c v acc else acc) es acc)
   <-> In (c, v) acc \/ In (i, c, v) es).
Proof.
  revert acc. induction es as [|[[r0 c0] v0] es IH]; intros acc Hnd Hdisj;
    simpl.
  - tauto.
  - simpl in Hnd. apply NoDup_cons_iff in Hnd. destruct Hnd as [Hnotin Hnd].
    destruct (r0 =? i) eqn:E.
    + apply Z.eqb_eq in E. subst r0.
      assert (Hfresh : ~ has_col c0 acc).
      { intros H. apply (Hdisj c0 H). now left. }
      rewrite IH; [|exact Hnd|].
      * rewrite (insert_sum_fresh c0 v0 c v acc Hfresh). split.
        -- intros [[H|H]|H].
           ++ injection H as -> ->. right. now left.
           ++ now left.
           ++ right. now right.
        -- intros [H|[H|H]].
           ++ left. now right.
           ++ injection H as -> ->. left. now left.
           ++ now right.
      * intros c' Hc' Hin. apply insert_sum_cols in Hc'.
        destruct Hc' as [->|Hc']; [contradiction|].
        apply (Hdisj c' Hc'). now right.
    + apply Z.eqb_neq in E. rewrite IH; [|exact Hnd|].
      * split.
        -- intros [H|H]; [now left | right; now right].
        -- intros [H|[H|H]]; [now left | | now right].
           injection H as -> _ _. contradiction.
      * intros c' Hc' Hin. apply (Hdisj c' Hc'). now right.
Qed.

Lemma csr_row_of_values (es : list entry) (i c v : Z) :
  NoDup (map fst es) ->
  (In (c, v) (csr_row_of es i) <-> In (i, c, v) es).
Proof.
  intros Hnd. unfold csr_row_of.
  rewrite (fold_insert_values es i c v [] Hnd).
  - simpl. tauto.
  - intros c' [x []].
Qed.

Lemma sp_csr_matrix_values (data row col : list Z) (m n : Z)
      (mtx : csr_matrix) (r c v : Z) :
  sp_csr_matrix data row col [m; n] = Ok mtx ->
  NoDup (combine row col) ->
  (In (r, c, v) (rows_entries 0 (csr_rows mtx))
   <-> In (r, c, v) (coo_entries data row col)).
Proof.
  intros H Hnd. apply sp_csr_matrix_checked in H.
  destruct H as (Hl1 & Hl2 & Hb & ->).
  assert (Hnd' : NoDup (map fst (coo_entries data row col))).
  { unfold coo_entries.
    assert (Hmap : forall (A B : Type) (l : list A) (d : list B),
               length l = length d -> map fst (combine l d) = l).
    { intros A B l. induction l as [|a l IH]; intros [|b d] Hlen;
        simpl in *; try discriminate; [reflexivity|].
      f_equal. apply IH. now injection Hlen. }
    rewrite Hmap; [exact Hnd|]. rewrite length_combine. lia. }
  rewrite rows_entries_In. split.
  - intros (k & rowk & H1 & H2 & H3).
    rewrite nth_error_map, nth_error_seq in H1.
    destruct (Nat.ltb_spec k (Z.to_nat m)); [|discriminate].
    simpl in H1. injection H1 as <-. subst r. simpl.
    now apply csr_row_of_values in H3.
  - intros Hin. rewrite Forall_forall in Hb.
    destruct (Hb _ Hin) as [Hr _]. simpl in Hr.
    exists (Z.to_nat r), (csr_row_of (coo_entries data row col) r).
    split; [|split; [lia|]].
    + rewrite nth_error_map, nth_error_seq.
      destruct (Nat.ltb_spec (Z.to_nat r) (Z.to_nat m)); [|lia].
      simpl. rewrite Z2Nat.id by lia. reflexivity.
    + now apply csr_row_of_values.
Qed.

Lemma NoDup_rebased (row col : list Z) (offset : Z) :
  NoDup (combine row col) ->
  NoDup (combine (map (fun r => r - offset) row) col).
Proof.
  rewrite combine_map_l_eq.
  generalize (combine row col). intros l Hnd.
  induction Hnd as [|[r c] l Hnotin _ IH]; simpl; constructor; [|exact IH].
  intros Hin. apply in_map_iff in Hin.
  destruct Hin as ([r' c'] & H & Hin). simpl in H. injection H as H <-.
  replace r' with r in Hin by lia. contradiction.
Qed.

(** X11.  A sparse window emits the store's cells with their values.  When
    the coordinates the store answers with are pairwise distinct, the tensor
    that [iter_tensors] yields for the k-th attribute over an extract slice
    inside the buffer holds the value [v] at the coordinate line [(r, c)]
    exactly when [0 <= r < len(extract_slice)] and the store answered with
    the value [v] for that attribute at
    [(read_slice.start + extract_slice.start + r, c)]: no cell of the window
    is lost, none is added, and no value is changed. *)
Theorem sparse_window_keeps_store_values
        (self self' : SparseTileDBTensorGenerator.t)
        (read_slice extract_slice : slice) (w w' : World) (ncols : Z)
        (buffer rest datas : OrderedDict (list Z)) (row col : list Z)
        (k : nat) (name : string) (values : list Z) (dtype : string) :
  SparseTileDBTensorGenerator.row_shape self = [ncols] ->
  sparse_cells (q_array (SparseTileDBTensorGenerator.query self))
               (q_attrs (SparseTileDBTensorGenerator.query self)) read_slice
  = Ok buffer ->
  od_pop (SparseTileDBTensorGenerator.row_dim self) buffer = Some (row, rest) ->
  od_pop (SparseTileDBTensorGenerator.col_dim self) rest = Some (col, datas) ->
  NoDup (combine row col) ->
  SparseTileDBTensorGenerator.read_buffer self read_slice w = (Ok self', w') ->
  nth_error datas k = Some (name, values) ->
  nth_error (SparseTileDBTensorGenerator.attr_dtypes self) k = Some dtype ->
  0 <= start extract_slice ->
  start extract_slice <= stop extract_slice ->
  stop extract_slice <= slice_len read_slice ->
  exists tensors data coords,
    SparseTileDBTensorGenerator.iter_tensors self' extract_slice = Ok tensors
    /\ nth_error tensors k
       = Some (SparseTensor data coords [slice_len extract_slice; ncols] dtype)
    /\ forall r c v,
        In ([r; c], v) (combine coords data)
        <-> 0 <= r < slice_len extract_slice
            /\ In (start read_slice + start extract_slice + r, c, v)
                  (combine (combine row col) values).
Proof.
  intros Hshape Hq Hp1 Hp2 Hnd Hread Hk Hd H0 H1 H2.
  destruct (sparse_window_tensor _ _ _ extract_slice _ _ _ _ _ _ _ _ _ _ _ _
              Hshape Hq Hp1 Hp2 Hread Hk Hd)
    as (tensors & m & Hit & Hcsr & Hrs & Hnth).
  destruct (sp_csr_matrix_inv _ _ _ _ _ _ Hcsr) as (_ & Hm & _).
  destruct (tensor_of_entries self' extract_slice m dtype _ _ Hm H0 H1 H2)
    as (data & coords & Ht & _ & Hent).
  rewrite Ht, Hrs in Hnth.
  exists tensors, data, coords. split; [exact Hit|]. split; [exact Hnth|].
  intros r c v. rewrite Hent.
  rewrite (sp_csr_matrix_values _ _ _ _ _ _ _ _ _ Hcsr
             (NoDup_rebased row col (start read_slice) Hnd)).
  rewrite rebased_entries.
  replace (r + start extract_slice + start read_slice)
    with (start read_slice + start extract_slice + r) by lia.
  reflexivity.
Qed.

Lemma sparse_window_keeps_store_values_witness :
  exists tensors data coords,
    SparseTileDBTensorGenerator.iter_tensors sparse_gen_example_read (Slice 1 3)
    = Ok tensors
    /\ nth_error tensors 0 = Some (SparseTensor data coords [2; 3] "float32")
    /\ forall r c v,
        In ([r; c], v) (combine coords data)
        <-> 0 <= r < 2
            /\ In (3 + 1 + r, c, v)
                  (combine (combine [3; 4; 5; 6] [0; 1; 2; 0]) [4; 5; 6; 7]).
Proof.
  apply (sparse_window_keeps_store_values
           sparse_gen_example sparse_gen_example_read
           (Slice 3 7) (Slice 1 3) []
           [read_event (SparseTileDBTensorGenerator.query sparse_gen_example)
                       (Slice 3 7)] 3
           [("rows", [3; 4; 5; 6]); ("cols", [0; 1; 2; 0]);
            ("data", [4; 5; 6; 7])]
           [("cols", [0; 1; 2; 0]); ("data", [4; 5; 6; 7])]
           [("data", [4; 5; 6; 7])]
           [3; 4; 5; 6] [0; 1; 2; 0] 0 "data" [4; 5; 6; 7] "float32");
    try reflexivity; try (simpl; lia).
  - simpl. repeat constructor; simpl; intuition congruence.
  - unfold slice_len; simpl; lia.
Defined.

(** ** Sparse arrays: bounds and refusals *)

Lemma Forall2_In_r {A B : Type} (P : A -> B -> Prop) (l : list A)
      (l' : list B) (b : B) :
  Forall2 P l l' -> In b l' -> exists a, In a l /\ P a b.
Proof.
  induction 1 as [|x y l l' Hxy _ IH]; intros Hin; [destruct Hin|].
  destruct Hin as [<-|Hin].
  - exists x. split; [now left | exact Hxy].
  - destruct (IH Hin) as (a & Ha & Hp). exists a. split; [now right | exact Hp].
Qed.

(** X12.  The coordinates of a sparse tensor always lie inside its dense
    shape.  After a successful [read_buffer] over a two-dimensional array,
    whatever the slice given to [iter_tensors], every tensor it yields has a
    dense shape [(n0, ncols)] and each of its coordinate lines is a pair
    [(r, c)] with [0 <= r < n0] and [0 <= c < ncols]. *)
Theorem sparse_coordinates_inside_dense_shape
        (self self' : SparseTileDBTensorGenerator.t)
        (read_slice s : slice) (w w' : World) (ncols : Z) :
  SparseTileDBTensorGenerator.row_shape self = [ncols] ->
  SparseTileDBTensorGenerator.read_buffer self read_slice w = (Ok self', w') ->
  exists tensors,
    SparseTileDBTensorGenerator.iter_tensors self' s = Ok tensors
    /\ Forall (fun t =>
                 exists data coords n0 dtype,
                   t = SparseTensor data coords [n0; ncols] dtype
                   /\ forall rc, In rc coords ->
                                 exists r c, rc = [r; c]
                                             /\ 0 <= r < n0
                                             /\ 0 <= c < ncols) tensors.
Proof.
  intros Hshape Hread.
  apply sparse_read_buffer_inv in Hread.
  destruct Hread as (buffer & row & rest & col & datas & csrs
                     & _ & _ & _ & Hm & Hbuf & Hrs & _ & _ & _).
  rewrite Hshape in Hm, Hrs. apply map_result_Forall2 in Hm.
  unfold SparseTileDBTensorGenerator.iter_tensors. rewrite Hbuf.
  eexists. split; [reflexivity|].
  apply Forall_map, Forall_forall. intros [m dtype] Hin.
  apply in_combine_l in Hin.
  destruct (Forall2_In_r _ _ _ _ Hm Hin) as (data & _ & Hcsr).
  destruct (sp_csr_matrix_checked _ _ _ _ _ _ Hcsr) as (_ & _ & Hb & _).
  destruct (sp_csr_matrix_inv _ _ _ _ _ _ Hcsr) as (_ & Hsh & _).
  unfold SparseTileDBTensorGenerator.tensor_of. rewrite Hrs.
  unfold csr_getitem.
  destruct (slice_indices s (fst (csr_shape m))) as [i0 i1].
  cbn [csr_shape fst].
  eexists _, _, _, dtype. split; [reflexivity|].
  intros rc Hrc. rewrite tocoo_coords in Hrc. apply in_map_iff in Hrc.
  destruct Hrc as ([[r c] v] & <- & Hent). simpl in Hent |- *.
  exists r, c. split; [reflexivity|].
  pose proof (rows_entries_row_bound _ _ _ _ _ Hent) as Hr.
  rewrite length_firstn in Hr.
  apply sliced_rows_entries in Hent. destruct Hent as [_ Hent].
  assert (Hc : exists v', In (r + Z.of_nat (Z.to_nat (Z.min i0 i1)), c, v')
                             (rows_entries 0 (csr_rows m)))
    by (now exists v).
  apply (sp_csr_matrix_coords _ _ _ _ _ _ _ _ Hcsr) in Hc.
  destruct Hc as [v' Hv']. rewrite Forall_forall in Hb.
  destruct (Hb _ Hv') as [_ Hcb]. simpl in Hcb. split; [lia | exact Hcb].
Qed.

Lemma sparse_coordinates_inside_dense_shape_witness :
  exists tensors,
    SparseTileDBTensorGenerator.iter_tensors sparse_gen_example_read (Slice 2 9)
    = Ok tensors
    /\ Forall (fun t =>
                 exists data coords n0 dtype,
                   t = SparseTensor data coords [n0; 3] dtype
                   /\ forall rc, In rc coords ->
                                 exists r c, rc = [r; c]
                                             /\ 0 <= r < n0
                                             /\ 0 <= c < 3) tensors.
Proof.
  apply (sparse_coordinates_inside_dense_shape
           sparse_gen_example sparse_gen_example_read
           (Slice 3 7) (Slice 2 9) []
           [read_event (SparseTileDBTensorGenerator.query sparse_gen_example)
                       (Slice 3 7)] 3);
    reflexivity.
Defined.

Lemma sp_csr_matrix_refuses (data row col : list Z) (m n r : Z) :
  length row = length data -> length col = length data ->
  In r row -> r < 0 \/ m <= r ->
  exists msg, sp_csr_matrix data row col [m; n] = Raise (ValueError msg).
Proof.
  intros Hl1 Hl2 Hin Hout. unfold sp_csr_matrix.
  destruct ((m <? 0) || (n <? 0)); [eexists; reflexivity|].
  rewrite Hl1, Hl2, !Nat.eqb_refl. simpl.
  destruct (forallb (entry_in_bounds m n) (coo_entries data row col)) eqn:Ef;
    [|eexists; reflexivity].
  exfalso.
  destruct (proj2 (combine_with_values row col r (eq_trans Hl1 (eq_sym Hl2)))
                  Hin) as [c Hc].
  assert (Hlen : length (combine row col) = length data)
    by (rewrite length_combine; lia).
  destruct (proj2 (combine_with_values (combine row col) data (r, c) Hlen) Hc)
    as [v Hv].
  rewrite forallb_forall in Ef. specialize (Ef (r, c, v) Hv).
  unfold entry_in_bounds in Ef.
  apply andb_prop in Ef. destruct Ef as [Ef _].
  apply andb_prop in Ef. destruct Ef as [Ef _].
  apply andb_prop in Ef. destruct Ef as [E1 E2].
  apply Z.leb_le in E1. apply Z.ltb_lt in E2. lia.
Qed.

(** X13.  A row coordinate outside the read slice is refused, not wrapped
    or clipped: when the store answers a read of [[start, stop)] with a cell
    whose row is below [start] or not below [stop], and with at least one
    value vector, [read_buffer] raises [ValueError] after the one read of
    the store, and no buffer results. *)
Theorem stray_row_coordinate_is_refused
        (self : SparseTileDBTensorGenerator.t) (read_slice : slice) (w : World)
        (ncols : Z) (buffer rest datas : OrderedDict (list Z))
        (row col values : list Z) (name : string) (r : Z) :
  SparseTileDBTensorGenerator.row_shape self = [ncols] ->
  sparse_cells (q_array (SparseTileDBTensorGenerator.query self))
               (q_attrs (SparseTileDBTensorGenerator.query self)) read_slice
  = Ok buffer ->
  od_pop (SparseTileDBTensorGenerator.row_dim self) buffer = Some (row, rest) ->
  od_pop (SparseTileDBTensorGenerator.col_dim self) rest
  = Some (col, (name, values) :: datas) ->
  length row = length values ->
  length col = length values ->
  In r row ->
  r < start read_slice \/ stop read_slice <= r ->
  exists msg,
    SparseTileDBTensorGenerator.read_buffer self read_slice w
    = (Raise (ValueError msg),
       w ++ [read_event (SparseTileDBTensorGenerator.query self) read_slice]).
Proof.
  intros Hshape Hq Hp1 Hp2 Hl1 Hl2 Hin Hout.
  destruct (sp_csr_matrix_refuses
              values (map (fun x => x - start read_slice) row) col
              (stop read_slice - start read_slice) ncols
              (r - start read_slice)) as [msg Hmsg].
  - now rewrite length_map.
  - exact Hl2.
  - apply in_map_iff. now exists r.
  - lia.
  - exists msg.
    unfold SparseTileDBTensorGenerator.read_buffer, bind, query_getitem_sparse,
      SparseTileDBTensorGenerator.pop.
    rewrite Hq, Hp1. unfold ret at 1. rewrite Hp2. unfold ret at 1.
    unfold lift. rewrite Hshape. cbn [od_values map snd map_result].
    rewrite Hmsg. reflexivity.
Qed.

Lemma stray_row_coordinate_is_refused_witness :
  exists msg,
    SparseTileDBTensorGenerator.read_buffer
      {| SparseTileDBTensorGenerator.row_dim := "rows";
         SparseTileDBTensorGenerator.col_dim := "cols";
         SparseTileDBTensorGenerator.row_shape := [3];
         SparseTileDBTensorGenerator.attr_dtypes := ["float32"];
         SparseTileDBTensorGenerator.query :=
           array_query (stray_example [3; 7]) ["data"];
         SparseTileDBTensorGenerator.buf_csrs := None |}
      (Slice 3 7) []
    = (Raise (ValueError msg),
       [] ++ [ {| ev_uri := "stray"; ev_attrs := ["data"];
                  ev_slice := Slice 3 7 |} ]).
Proof.
  apply (stray_row_coordinate_is_refused
           {| SparseTileDBTensorGenerator.row_dim := "rows";
              SparseTileDBTensorGenerator.col_dim := "cols";
              SparseTileDBTensorGenerator.row_shape := [3];
              SparseTileDBTensorGenerator.attr_dtypes := ["float32"];
              SparseTileDBTensorGenerator.query :=
                array_query (stray_example [3; 7]) ["data"];
              SparseTileDBTensorGenerator.buf_csrs := None |}
           (Slice 3 7) [] 3
           [("rows", [3; 7]); ("cols", [0; 0]); ("data", [4; 8])]
           [("cols", [0; 0]); ("data", [4; 8])] []
           [3; 7] [0; 0] [4; 8] "data" 7);
    try reflexivity.
  - simpl. right. now left.
  - simpl. right. lia.
Defined.

Lemma od_pop_missing {A : Type} (key : string) (d : OrderedDict A) :
  ~ In key (map fst d) -> od_pop key d = None.
Proof.
  induction d as [|[k v] d IH]; simpl; intros H; [reflexivity|].
  destruct (String.eqb k key) eqn:E.
  - apply String.eqb_eq in E. exfalso. apply H. now left.
  - rewrite IH; [reflexivity|]. intros Hin. apply H. now right.
Qed.

Lemma od_pop_rest_keys {A : Type} (key : string) (d rest : OrderedDict A)
      (x : A) (k : string) :
  od_pop key d = Some (x, rest) -> In k (map fst rest) -> In k (map fst d).
Proof.
  revert rest. induction d as [|[k0 v0] d IH]; simpl; intros rest H Hin;
    [discriminate|].
  destruct (String.eqb k0 key).
  - injection H as _ <-. now right.
  - destruct (od_pop key d) as [[x' rest']|] eqn:E; [|discriminate].
    injection H as <- <-. simpl in Hin. destruct Hin as [Hin|Hin].
    + now left.
    + right. now apply (IH rest').
Qed.

(** X14.  The coordinates are taken from the store's answer by the names of
    the first two dimensions of the schema.  When the answer has no entry
    under the name of the row dimension, or has one but none under the name
    of the column dimension, [read_buffer] raises [KeyError] for the missing
    name, after the one read of the store. *)
Theorem missing_dimension_raises_key_error
        (self : SparseTileDBTensorGenerator.t) (read_slice : slice) (w : World)
        (buffer : OrderedDict (list Z)) :
  sparse_cells (q_array (SparseTileDBTensorGenerator.query self))
               (q_attrs (SparseTileDBTensorGenerator.query self)) read_slice
  = Ok buffer ->
  (~ In (SparseTileDBTensorGenerator.row_dim self) (map fst buffer) ->
   SparseTileDBTensorGenerator.read_buffer self read_slice w
   = (Raise (KeyError (SparseTileDBTensorGenerator.row_dim self)),
      w ++ [read_event (SparseTileDBTensorGenerator.query self) read_slice]))
  /\ (In (SparseTileDBTensorGenerator.row_dim self) (map fst buffer) ->
      ~ In (SparseTileDBTensorGenerator.col_dim self) (map fst buffer) ->
      SparseTileDBTensorGenerator.read_buffer self read_slice w
      = (Raise (KeyError (SparseTileDBTensorGenerator.col_dim self)),
         w ++ [read_event (SparseTileDBTensorGenerator.query self) read_slice])).
Proof.
  intros Hq.
  unfold SparseTileDBTensorGenerator.read_buffer, bind, query_getitem_sparse,
    SparseTileDBTensorGenerator.pop.
  rewrite Hq. split.
  - intros Hrow. rewrite (od_pop_missing _ _ Hrow). reflexivity.
  - intros Hrow Hcol.
    destruct (od_pop (SparseTileDBTensorGenerator.row_dim self) buffer)
      as [[row rest]|] eqn:E1.
    + unfold ret at 1. rewrite od_pop_missing; [reflexivity|].
      intros Hin. apply Hcol. eapply od_pop_rest_keys; eassumption.
    + exfalso. clear -Hrow E1.
      induction buffer as [|[k v] d IH]; simpl in *; [contradiction|].
      destruct (String.eqb k (SparseTileDBTensorGenerator.row_dim self)) eqn:E;
        [discriminate|].
      apply String.eqb_neq in E.
      destruct (od_pop _ d) as [[x r]|]; [discriminate|].
      destruct Hrow as [Hrow|Hrow]; [contradiction|]. now apply IH.
Qed.

Lemma missing_dimension_raises_key_error_witness :
  SparseTileDBTensorGenerator.read_buffer
    {| SparseTileDBTensorGenerator.row_dim := "rows";
       SparseTileDBTensorGenerator.col_dim := "columns";
       SparseTileDBTensorGenerator.row_shape := [3];
       SparseTileDBTensorGenerator.attr_dtypes := ["float32"];
       SparseTileDBTensorGenerator.query :=
         array_query (sparse_example "x" (dims2 9)) ["data"];
       SparseTileDBTensorGenerator.buf_csrs := None |}
    (Slice 3 7) []
  = (Raise (KeyError "columns"),
     [] ++ [ {| ev_uri := "x"; ev_attrs := ["data"]; ev_slice := Slice 3 7 |} ]).
Proof.
  apply (missing_dimension_raises_key_error
           {| SparseTileDBTensorGenerator.row_dim := "rows";
              SparseTileDBTensorGenerator.col_dim := "columns";
              SparseTileDBTensorGenerator.row_shape := [3];
              SparseTileDBTensorGenerator.attr_dtypes := ["float32"];
              SparseTileDBTensorGenerator.query :=
                array_query (sparse_example "x" (dims2 9)) ["data"];
              SparseTileDBTensorGenerator.buf_csrs := None |}
           (Slice 3 7) []
           [("rows", [3; 4; 5; 6]); ("cols", [0; 1; 2; 0]);
            ("data", [4; 5; 6; 7])]).
  - reflexivity.
  - simpl. now left.
  - simpl. intros [H|[H|[H|[]]]]; discriminate.
Defined.

(** * The sequencer: what a request yields *)











